(** * security_monkey.task_scheduler.tasks: scheduling and orchestration

    A shallow embedding of [security_monkey/task_scheduler/tasks.py].
    The module is orchestration code: almost every statement is a call to a
    collaborator (watchers, auditors, the monitor registry, the Celery
    application, the SQLAlchemy session, the exception store).  The
    collaborators are not part of the module, so they are an oracle here: a
    call is answered, in the current external state, by a value or by a raised
    exception, and the state moves on.  What the module itself decides (which
    calls are made, in which order, what is caught, what is recorded) is the
    program below, written in a small state/exception/trace monad. *)

From Stdlib Require Import List String ZArith Lia Bool Arith.
Import ListNotations.
Open Scope string_scope.
Open Scope list_scope.

Set Implicit Arguments.

(** ** Exceptions *)

(** Python exceptions that are instances of [Exception].  The three SQLAlchemy
    classes are the ones named in the [except] clauses of the module
    ([StatementError] also stands for its other subclasses); [AttributeError]
    and [IndexError] are what attribute access on [None] and [xs[0]] on an
    empty list raise; [Retry] is [celery.exceptions.Retry]. *)
Inductive exn : Type :=
| OperationalError
| InvalidRequestError
| StatementError
| AttributeError
| IndexError
| OtherError (cls : string)
| Retry (exc : exn).

(** [except (OperationalError, InvalidRequestError, StatementError)] *)
Definition is_db_error (e : exn) : bool :=
  match e with
  | OperationalError | InvalidRequestError | StatementError => true
  | _ => false
  end.

(** ** Data *)

Definition item := string.
(** A fetch-scope tuple, e.g. (account, technology, region). *)
Definition location := list string.
(** A Python 2 dict from scope tuples to exceptions; [keys()[0]] is the head. *)
Definition exception_map := list (location * exn).

Record Watcher : Type := mkWatcher
  { index : string;
    i_am_plural : string;
    batched_size : Z;
    accounts : list string }.

Record Auditor : Type := mkAuditor
  { au_index : string }.

Record Monitor : Type := mkMonitor
  { watcher : option Watcher;
    auditors : list Auditor;
    batch_support : bool }.

Record Account : Type := mkAccount
  { name : string;
    type_name : string;
    active : bool;
    third_party : bool }.

(** The Celery tasks the module declares. *)
Inductive task_id : Type :=
| TaskAccountTech
| TaskAudit
| ClearExpiredExceptions.

(** First argument of [add_periodic_task]: a number of seconds or a
    [crontab(...)]; crontab fields that the call leaves out are ["*"]. *)
Inductive schedule : Type :=
| Every (seconds : Z)
| Crontab (minute hour day_of_week : string).

(** ** Calls to collaborators *)

Inductive call : Type :=
| FindModules (folder : string)
| Purge
| AccountQueryAll
| ReporterAllMonitors (account : string)
| GetInterval (w : Watcher)
| ApplyAsync (t : task_id) (args : list string)
| AddPeriodicTask (sched : schedule) (t : task_id) (args : list string)
| ClearOldExceptions
| GetMonitors (account : string) (monitor_names : list string) (debug : bool)
| GetMonitorsAndDependencies (account : string) (monitor_names : list string) (debug : bool)
| SlurpList (w : Watcher)
| Slurp (w : Watcher)
| WatcherFindChanges (w : Watcher) (current : list item) (em : exception_map)
| Save (w : Watcher)
| FindDeletedBatch (w : Watcher) (account : string)
| ReadPreviousItems (au : Auditor)
| AuditObjects (au : Auditor) (items : list item)
| SaveIssues (au : Auditor)
| CreateReport (au : Auditor)
| EmailReport (au : Auditor) (report : string)
| SyncIssues (accts : list string) (idx : string)
| AlerterReport (monitors : list Monitor) (account : string).

(** What each call returns when it returns. *)
Definition answer (c : call) : Type :=
  match c with
  | AccountQueryAll => list Account
  | ReporterAllMonitors _ => list Monitor
  | GetInterval _ => Z
  | GetMonitors _ _ _ => list Monitor
  | GetMonitorsAndDependencies _ _ _ => list Monitor
  | SlurpList _ => (list item * exception_map)%type
  | Slurp _ => (list item * exception_map)%type
  | WatcherFindChanges _ _ _ => list item
  | ReadPreviousItems _ => list item
  | CreateReport _ => string
  | _ => unit
  end.

(** ** Observable trace *)

(** Every call that is made is logged when it is made.  The remaining
    constructors are effects of the module that do not raise: the exception
    store catches its own failures, Sentry capture and session release are
    fire-and-forget.  Of the log lines only the error-level ones are kept
    (static text and its arguments); [TaskStart] and [RetrySent] belong to the
    Celery worker (see below). *)
Inductive event : Type :=
| Called (c : call)
| StoreException (source : string) (e : exn)
| SentryCapture
| SessionRemove
| SessionClose
| LogError (msg : string) (args : list string)
| TaskStart (t : task_id) (args : list string) (retries : nat)
| RetrySent (t : task_id) (args : list string) (retries : nat).

(** Static text of the error-level log lines. *)
Definition msg_nothing_fetched : string :=
  "[X] Exceptions have caused nothing to be fetched for {technology}/{account}/{region}... CANNOT CONTINUE FOR THIS WATCHER!".
Definition msg_audit_database_error : string :=
  "[X] Database error processing accounts %s, cleaning up session.".
Definition msg_task_database_error : string :=
  "[X] Database error processing account %s - technology %s cleaning up session.".
Definition msg_manual_database_error : string :=
  "[X] Database error processing cleaning up session.".
Definition msg_watch_exception : string :=
  "[X] Task Account Scheduler Exception ({}/{}): {}".
Definition msg_audit_exception : string :=
  "[X] Task Audit Scheduler Exception ({}/{}): {}".
Definition msg_scheduler_exception : string :=
  "[X] Scheduler Exception: {}".
Definition msg_traceback : string := "traceback.format_exc()".

(** Result of running a piece of the program: a value, a raised exception, or
    no result within the given number of loop iterations. *)
Inductive outcome (A : Type) : Type :=
| Ret (a : A)
| Raise (e : exn)
| Diverge.
Arguments Raise {A} e.
Arguments Diverge {A}.

(** The environment of one process: the two optional module-level
    collaborators ([sentry] and [jirasync] are [None] or an object), the
    oracle, and the [done_slurping] attribute of a watcher. *)
Record Env (E : Type) : Type := mkEnv
  { sentry : bool;
    jirasync : bool;
    oracle : forall c : call, E -> outcome (answer c) * E;
    done_slurping : Watcher -> E -> bool }.

(** ** The monad *)

Definition M (E A : Type) : Type := E -> outcome A * E * list event.

Definition pure {E A} (a : A) : M E A := fun s => (Ret a, s, []).
Definition raise {E A} (e : exn) : M E A := fun s => (Raise e, s, []).
Definition diverge {E A} : M E A := fun s => (Diverge, s, []).
Definition emit {E} (ev : event) : M E unit := fun s => (Ret tt, s, [ev]).

Definition bind {E A B} (m : M E A) (f : A -> M E B) : M E B :=
  fun s =>
    match m s with
    | (Ret a, s1, ev1) => let '(r, s2, ev2) := f a s1 in (r, s2, ev1 ++ ev2)
    | (Raise e, s1, ev1) => (Raise e, s1, ev1)
    | (Diverge, s1, ev1) => (Diverge, s1, ev1)
    end.

(** [try: m  except Exception as e: h e] *)
Definition try_except {E A} (m : M E A) (h : exn -> M E A) : M E A :=
  fun s =>
    match m s with
    | (Raise e, s1, ev1) => let '(r, s2, ev2) := h e s1 in (r, s2, ev1 ++ ev2)
    | other => other
    end.

(** [try: m  except (OperationalError, InvalidRequestError, StatementError) as e: h e]:
    any other exception propagates. *)
Definition try_except_db {E A} (m : M E A) (h : exn -> M E A) : M E A :=
  try_except m (fun e => if is_db_error e then h e else raise e).

Declare Scope monad_scope.
Delimit Scope monad_scope with monad.
Notation "x <- m ;; k" := (bind m (fun x => k))
  (at level 100, m at next level, right associativity) : monad_scope.
Notation "' p <- m ;; k" := (bind m (fun x => match x with p => k end))
  (at level 100, p pattern, m at next level, right associativity) : monad_scope.
Notation "m ;; k" := (bind m (fun _ => k))
  (at level 100, right associativity) : monad_scope.
Open Scope monad_scope.

(** [for x in xs: f x] *)
Fixpoint for_each {E A} (xs : list A) (f : A -> M E unit) : M E unit :=
  match xs with
  | [] => pure tt
  | x :: rest => f x ;; for_each rest f
  end.

Definition when {E} (b : bool) (m : M E unit) : M E unit :=
  if b then m else pure tt.

(** Projections of a run. *)
Definition result {A E} (r : outcome A * E * list event) : outcome A := fst (fst r).
Definition final {A E} (r : outcome A * E * list event) : E := snd (fst r).
Definition events {A E} (r : outcome A * E * list event) : list event := snd r.

(** ** The module *)

Section Tasks.

Context {E : Type} (env : Env E).

Definition do_call (c : call) : M E (answer c) :=
  fun s => let '(r, s') := oracle env c s in (r, s', [Called c]).

(** [setup]: load watchers, auditors and alerters. *)
Definition setup : M E unit :=
  do_call (FindModules "alerters") ;;
  do_call (FindModules "watchers") ;;
  do_call (FindModules "auditors").

(** [purge_it] *)
Definition purge_it : M E unit := do_call Purge.

(** Body of the handlers: [if sentry: sentry.captureException()]. *)
Definition capture : M E unit := when (sentry env) (emit SentryCapture).

(** *** Audit orchestrator *)

(** One iteration of the loop of [_audit_changes]. *)
Definition audit_one (account : string) (send_report : bool) (au : Auditor) : M E unit :=
  items <- do_call (ReadPreviousItems au) ;;
  do_call (AuditObjects au items) ;;
  do_call (SaveIssues au) ;;
  when send_report
    (report <- do_call (CreateReport au) ;; do_call (EmailReport au report)) ;;
  when (jirasync env) (do_call (SyncIssues [account] (au_index au))).

Definition _audit_changes (account : string) (aus : list Auditor)
    (send_report debug : bool) : M E unit :=
  try_except_db
    (for_each aus (audit_one account send_report))
    (fun e =>
       emit (LogError msg_audit_database_error [account]) ;;
       emit SessionRemove ;;
       emit (StoreException "scheduler-audit-changes" e)).

(** [monitor.watcher.accounts]: fails on a monitor without watcher. *)
Definition watcher_accounts (monitor : Monitor) : M E (list string) :=
  match watcher monitor with
  | None => raise AttributeError
  | Some w => pure (accounts w)
  end.

(** [monitor.watcher.accounts[0]] *)
Definition first_account (monitor : Monitor) : M E string :=
  accts <- watcher_accounts monitor ;;
  match accts with
  | [] => raise IndexError
  | a :: _ => pure a
  end.

(** One iteration of the loop of [_audit_specific_changes]. *)
Definition audit_specific_one (monitor : Monitor) (audit_items : list item)
    (send_report : bool) (au : Auditor) : M E unit :=
  do_call (AuditObjects au audit_items) ;;
  do_call (SaveIssues au) ;;
  when send_report
    (report <- do_call (CreateReport au) ;; do_call (EmailReport au report)) ;;
  when (jirasync env)
    (_ <- first_account monitor ;;
     accts <- watcher_accounts monitor ;;
     do_call (SyncIssues accts (au_index au))).

Definition _audit_specific_changes (monitor : Monitor) (audit_items : list item)
    (send_report debug : bool) : M E unit :=
  try_except_db
    (for_each (auditors monitor) (audit_specific_one monitor audit_items send_report))
    (fun e =>
       a <- first_account monitor ;;
       emit (LogError msg_audit_database_error [a]) ;;
       emit SessionRemove ;;
       emit (StoreException "scheduler-audit-changes" e)).

(** Body of the inner loop of [audit_changes]; the debug line reads
    [monitor.watcher.index]. *)
Definition audit_monitor (account : string) (send_report debug skip_batch : bool)
    (monitor : Monitor) : M E unit :=
  if batch_support monitor && skip_batch then pure tt
  else
    match watcher monitor with
    | None => raise AttributeError
    | Some _ => _audit_changes account (auditors monitor) send_report debug
    end.

Definition audit_changes (accts : list string) (monitor_names : list string)
    (send_report debug skip_batch : bool) : M E unit :=
  for_each accts (fun account =>
    monitors <- do_call (GetMonitorsAndDependencies account monitor_names debug) ;;
    for_each monitors (audit_monitor account send_report debug skip_batch)).

(** Default values of the keyword parameters [debug] and [skip_batch]. *)
Definition default_debug : bool := true.
Definition default_skip_batch : bool := true.

(** *** Batch consumer *)

(** Body of the [while] loop of [batch_logic]. *)
Definition batch_page (monitor : Monitor) (current_watcher : Watcher) (debug : bool) : M E unit :=
  ' (items, exception_map) <- do_call (Slurp current_watcher) ;;
  audit_items <- do_call (WatcherFindChanges current_watcher items exception_map) ;;
  _audit_specific_changes monitor audit_items false debug.

(** [while not current_watcher.done_slurping: ...], at most [fuel] tests of
    the condition. *)
Fixpoint batch_loop (fuel : nat) (monitor : Monitor) (current_watcher : Watcher)
    (debug : bool) : M E unit :=
  match fuel with
  | O => diverge
  | S fuel' =>
      fun s =>
        if done_slurping env current_watcher s then pure tt s
        else (batch_page monitor current_watcher debug ;;
              batch_loop fuel' monitor current_watcher debug) s
  end.

(** [n] consecutive iterations of that loop: each is entered with
    [done_slurping] unset and is left normally.  The result is the state and
    the events after the [n]th, if the loop gets that far. *)
Fixpoint paging (n : nat) (monitor : Monitor) (current_watcher : Watcher)
    (debug : bool) (s : E) : option (E * list event) :=
  match n with
  | O => Some (s, [])
  | S n' =>
      if done_slurping env current_watcher s then None
      else
        match batch_page monitor current_watcher debug s with
        | (Ret _, s1, ev1) =>
            match paging n' monitor current_watcher debug s1 with
            | Some (s2, ev2) => Some (s2, ev1 ++ ev2)
            | None => None
            end
        | _ => None
        end
  end.

(** [location[2] if len(location) > 2 else "unknown"] *)
Definition region_of (loc : location) : string :=
  if (2 <? List.length loc)%nat then List.nth 2 loc "" else "unknown".

Definition batch_logic (fuel : nat) (monitor : Monitor) (current_watcher : Watcher)
    (account_name : string) (debug : bool) : M E unit :=
  ' (_, exception_map) <- do_call (SlurpList current_watcher) ;;
  match exception_map with
  | (loc, _) :: _ =>
      emit (LogError msg_nothing_fetched
              [i_am_plural current_watcher; account_name; region_of loc])
  | [] =>
      batch_loop fuel monitor current_watcher debug ;;
      do_call (FindDeletedBatch current_watcher account_name)
  end.

(** *** Change finder *)

(** Body of the loop of [find_changes]; the info line reads [cw.index]. *)
Definition watch_monitor (fuel : nat) (account_name : string) (debug : bool)
    (mon : Monitor) : M E unit :=
  match watcher mon with
  | None => raise AttributeError
  | Some cw =>
      if batch_support mon then batch_logic fuel mon cw account_name debug
      else
        ' (items, exception_map) <- do_call (Slurp cw) ;;
        _ <- do_call (WatcherFindChanges cw items exception_map) ;;
        do_call (Save cw)
  end.

Definition find_changes (fuel : nat) (account_name monitor_name : string)
    (debug : bool) : M E (list Monitor) :=
  monitors <- do_call (GetMonitors account_name [monitor_name] debug) ;;
  for_each monitors (watch_monitor fuel account_name debug) ;;
  audit_changes [account_name] [monitor_name] false debug default_skip_batch ;;
  emit SessionClose ;;
  pure monitors.

(** The [try] block of [reporter_logic]: watch and audit, then alert. *)
Definition watch_audit_alert (fuel : nat) (account_name technology_name : string) : M E unit :=
  monitors <- find_changes fuel account_name technology_name default_debug ;;
  do_call (AlerterReport monitors account_name).

Definition reporter_logic (fuel : nat) (account_name technology_name : string) : M E unit :=
  try_except_db
    (watch_audit_alert fuel account_name technology_name)
    (fun e =>
       emit (LogError msg_task_database_error
               [account_name; technology_name]) ;;
       emit SessionRemove ;;
       emit (StoreException "scheduler-task-account-tech" e) ;;
       raise e).

(** Body of the loop over [rep.all_monitors] in [manual_run_change_reporter]. *)
Definition report_monitor (fuel : nat) (account : string) (monitor : Monitor) : M E unit :=
  match watcher monitor with
  | Some w => reporter_logic fuel account (index w)
  | None => pure tt
  end.

(** [manual_run_change_reporter] *)
Definition manual_run_change_reporter (fuel : nat) (accts : list string) : M E unit :=
  try_except_db
    (for_each accts (fun account =>
       monitors <- do_call (ReporterAllMonitors account) ;;
       for_each monitors (report_monitor fuel account)))
    (fun e =>
       emit (LogError msg_manual_database_error []) ;;
       emit SessionRemove ;;
       emit (StoreException "scheduler-run-change-reporter" e) ;;
       raise e).

(** [manual_run_change_finder] *)
Definition manual_run_change_finder (fuel : nat) (accts technologies : list string) : M E unit :=
  try_except_db
    (for_each accts (fun account =>
       for_each technologies (fun tech =>
         _ <- find_changes fuel account tech default_debug ;; pure tt)))
    (fun e =>
       emit (LogError msg_manual_database_error []) ;;
       emit SessionRemove ;;
       emit (StoreException "scheduler-run-change-reporter" e) ;;
       raise e).

(** *** Celery tasks *)

(** [max_retries=3] of both [@CELERY.task(bind=True, max_retries=3)]. *)
Definition max_retries : nat := 3.

(** [self.retry(exc=e)] of Celery's [Task.retry], which the module calls and
    does not define: with [request.retries] the number of retries already
    made, it raises [exc] itself when [request.retries + 1 > max_retries];
    otherwise it sends the task again with the incremented count and, [throw]
    being true unless the caller passes [throw=False], raises [Retry]; with
    [throw=False] it returns the [Retry] object. *)
Definition retry (t : task_id) (args : list string) (retries : nat)
    (exc : exn) (throw : bool) : M E exn :=
  if (max_retries <? S retries)%nat then raise exc
  else
    emit (RetrySent t args (S retries)) ;;
    if throw then raise (Retry exc) else pure (Retry exc).

(** One execution of [task_account_tech], at the given [request.retries]. *)
Definition task_account_tech (fuel : nat) (retries : nat)
    (account_name technology_name : string) : M E unit :=
  setup ;;
  try_except
    (reporter_logic fuel account_name technology_name)
    (fun e =>
       capture ;;
       emit (LogError msg_watch_exception [account_name; technology_name]) ;;
       emit (LogError msg_traceback []) ;;
       emit (StoreException "scheduler-exception-on-watch" e) ;;
       r <- retry TaskAccountTech [account_name; technology_name] retries e true ;;
       raise r).

(** One execution of [task_audit]: the handler ends in [self.retry(exc=e)]
    without [raise]. *)
Definition task_audit (retries : nat) (account_name technology_name : string) : M E unit :=
  setup ;;
  try_except
    (audit_changes [account_name] [technology_name] true default_debug default_skip_batch)
    (fun e =>
       capture ;;
       emit (LogError msg_audit_exception [account_name; technology_name]) ;;
       emit (LogError msg_traceback []) ;;
       emit (StoreException "scheduler-exception-on-audit" e) ;;
       _ <- retry TaskAudit [account_name; technology_name] retries e true ;;
       pure tt).

Definition clear_expired_exceptions : M E unit := do_call ClearOldExceptions.

(** *** Scheduler bootstrapper *)

(** [Account.query.filter(Account.third_party == False).filter(Account.active == True)] *)
Definition eligible (a : Account) : bool := negb (third_party a) && active a.

(** Body of the loop over [rep.all_monitors] in [setup_the_tasks]. *)
Definition schedule_monitor (account : Account) (monitor : Monitor) : M E unit :=
  match watcher monitor with
  | None => pure tt
  | Some w =>
      minutes <- do_call (GetInterval w) ;;
      let interval := (minutes * 60)%Z in
      do_call (ApplyAsync TaskAccountTech [name account; index w]) ;;
      do_call (AddPeriodicTask (Every interval) TaskAccountTech [name account; index w]) ;;
      when (negb (batch_support monitor))
        (do_call (AddPeriodicTask (Crontab "*" "10" "mon-fri") TaskAudit [name account; index w]))
  end.

Definition schedule_account (account : Account) : M E unit :=
  monitors <- do_call (ReporterAllMonitors (name account)) ;;
  for_each monitors (schedule_monitor account).

(** The [try] block of [setup_the_tasks]. *)
Definition schedule_all : M E unit :=
  rows <- do_call AccountQueryAll ;;
  for_each (filter eligible rows) schedule_account ;;
  do_call (AddPeriodicTask (Crontab "0" "3" "*") ClearExpiredExceptions []).

Definition setup_the_tasks : M E unit :=
  setup ;;
  purge_it ;;
  try_except schedule_all
    (fun e =>
       capture ;;
       emit (LogError msg_scheduler_exception []) ;;
       emit (LogError msg_traceback []) ;;
       emit (StoreException "scheduler" e)).

(** *** The worker *)

(** Did this execution send the task again?  ([Task.retry] sends at most one
    message per execution.) *)
Definition is_retry_sent (ev : event) : bool :=
  match ev with RetrySent _ _ _ => true | _ => false end.

(** The Celery worker executing a task message and the messages the
    executions send again: an execution that sent the task again is followed
    by the execution of that message, whose [request.retries] is one more.
    [budget] bounds the number of executions. *)
Fixpoint worker (budget : nat) (t : task_id) (args : list string)
    (execution : nat -> M E unit) (retries : nat) : M E unit :=
  match budget with
  | O => diverge
  | S budget' =>
      fun s =>
        let '(r, s1, ev1) := (emit (TaskStart t args retries) ;; execution retries) s in
        match r with
        | Diverge => (Diverge, s1, ev1)
        | _ =>
            if existsb is_retry_sent ev1 then
              let '(r2, s2, ev2) := worker budget' t args execution (S retries) s1 in
              (r2, s2, ev1 ++ ev2)
            else (r, s1, ev1)
        end
  end.

Definition run_task_account_tech (budget fuel : nat) (account_name technology_name : string) : M E unit :=
  worker budget TaskAccountTech [account_name; technology_name]
    (fun retries => task_account_tech fuel retries account_name technology_name) 0.

Definition run_task_audit (budget : nat) (account_name technology_name : string) : M E unit :=
  worker budget TaskAudit [account_name; technology_name]
    (fun retries => task_audit retries account_name technology_name) 0.

End Tasks.


(** ** Reading traces *)

(** Every event a piece of program emits, from every state, satisfies [p]. *)
Definition emits {E A} (p : event -> bool) (m : M E A) : Prop :=
  forall s, forallb p (events (m s)) = true.

(** An ExceptionRecord is stored. *)
Definition is_store (ev : event) : bool :=
  match ev with StoreException _ _ => true | _ => false end.

(** The watcher's deletion reconciliation is invoked. *)
Definition is_reconcile (ev : event) : bool :=
  match ev with Called (FindDeletedBatch _ _) => true | _ => false end.

(** The data session is released: [db.session.close()] or [db.session.remove()]. *)
Definition is_release (ev : event) : bool :=
  match ev with SessionClose | SessionRemove => true | _ => false end.

Definition is_close (ev : event) : bool :=
  match ev with SessionClose => true | _ => false end.

(** An execution of a task starts. *)
Definition is_task_start (ev : event) : bool :=
  match ev with TaskStart _ _ _ => true | _ => false end.

(** Events of the worker, as opposed to those of the task bodies. *)
Definition is_worker_event (ev : event) : bool :=
  match ev with TaskStart _ _ _ | RetrySent _ _ _ => true | _ => false end.

(** Work of the batch consumer past its first fetch: a page fetch, change
    detection, anything an auditor does, deletion reconciliation, a stored
    ExceptionRecord. *)
Definition is_batch_work (ev : event) : bool :=
  match ev with
  | Called (Slurp _) | Called (WatcherFindChanges _ _ _) | Called (Save _)
  | Called (FindDeletedBatch _ _)
  | Called (ReadPreviousItems _) | Called (AuditObjects _ _) | Called (SaveIssues _)
  | Called (CreateReport _) | Called (EmailReport _ _) | Called (SyncIssues _ _)
  | StoreException _ _ => true
  | _ => false
  end.

(** Registrations made by the bootstrapper for one (account, technology). *)
Definition same_pair (a t : string) (args : list string) : bool :=
  match args with
  | [a'; t'] => (a =? a')%string && (t =? t')%string
  | _ => false
  end.

Definition is_immediate (a t : string) (ev : event) : bool :=
  match ev with
  | Called (ApplyAsync TaskAccountTech args) => same_pair a t args
  | _ => false
  end.

Definition is_periodic (a t : string) (ev : event) : bool :=
  match ev with
  | Called (AddPeriodicTask _ TaskAccountTech args) => same_pair a t args
  | _ => false
  end.

Definition is_periodic_audit (a t : string) (ev : event) : bool :=
  match ev with
  | Called (AddPeriodicTask _ TaskAudit args) => same_pair a t args
  | _ => false
  end.

(** Auditor [idx] evaluates its rules. *)
Definition is_audit_of (idx : string) (ev : event) : bool :=
  match ev with
  | Called (AuditObjects au _) => (au_index au =? idx)%string
  | _ => false
  end.

(** What the handler of [_audit_changes] and [_audit_specific_changes] leaves
    in the trace. *)
Definition audit_fault_handled (who : string) (e : exn) : list event :=
  [LogError msg_audit_database_error [who];
   SessionRemove;
   StoreException "scheduler-audit-changes" e].

(** Number of executions of a task in a trace. *)
Definition attempts (evs : list event) : nat :=
  List.length (filter is_task_start evs).

(** What [if sentry: sentry.captureException()] leaves in the trace. *)
Definition captured {E} (env : Env E) : list event :=
  if sentry env then [SentryCapture] else [].

(** What [self.retry(exc=e)] raises and leaves in the trace at
    [request.retries = retries]. *)
Definition retry_raises (retries : nat) (e : exn) : exn :=
  if (max_retries <? S retries)%nat then e else Retry e.

Definition retry_sends (t : task_id) (args : list string) (retries : nat) : list event :=
  if (max_retries <? S retries)%nat then [] else [RetrySent t args (S retries)].

(** What the handler of [reporter_logic] leaves in the trace. *)
Definition watch_fault_handled (account_name technology_name : string) (e : exn) : list event :=
  [LogError msg_task_database_error [account_name; technology_name];
   SessionRemove;
   StoreException "scheduler-task-account-tech" e].

(** What the handlers of the two tasks leave in the trace, up to the retry. *)
Definition task_fault_recorded {E} (env : Env E) (msg source : string)
    (account_name technology_name : string) (e : exn) : list event :=
  captured env ++
  [LogError msg [account_name; technology_name];
   LogError msg_traceback [];
   StoreException source e].

(** A piece of program that, from every state, returns [v] and emits [evs]. *)
Definition returns {E A} (m : M E A) (v : A) (evs : list event) : Prop :=
  forall s, result (m s) = Ret v /\ events (m s) = evs.

(** The collaborators of the bootstrapper answer: the account table, the
    monitors of an account and the interval of a watcher are what they are,
    and the Celery application accepts what it is given. *)
Record bootstrap_answers {E} (env : Env E) (table : list Account)
    (monitors_of : string -> list Monitor) (interval_of : Watcher -> Z) : Prop :=
  { answers_modules : forall f s, fst (oracle env (FindModules f) s) = Ret tt;
    answers_purge : forall s, fst (oracle env Purge s) = Ret tt;
    answers_accounts : forall s, fst (oracle env AccountQueryAll s) = Ret table;
    answers_monitors :
      forall a s, fst (oracle env (ReporterAllMonitors a) s) = Ret (monitors_of a);
    answers_interval :
      forall w s, fst (oracle env (GetInterval w) s) = Ret (interval_of w);
    answers_apply_async :
      forall t args s, fst (oracle env (ApplyAsync t args) s) = Ret tt;
    answers_add_periodic :
      forall sched t args s, fst (oracle env (AddPeriodicTask sched t args) s) = Ret tt }.

(** The trace of [schedule_monitor], [schedule_account] and [schedule_all]
    when the collaborators answer. *)
Definition monitor_registrations (interval_of : Watcher -> Z)
    (a : Account) (m : Monitor) : list event :=
  match watcher m with
  | None => []
  | Some w =>
      [Called (GetInterval w);
       Called (ApplyAsync TaskAccountTech [name a; index w]);
       Called (AddPeriodicTask (Every (interval_of w * 60)) TaskAccountTech [name a; index w])]
      ++ (if batch_support m then []
          else [Called (AddPeriodicTask (Crontab "*" "10" "mon-fri") TaskAudit
                          [name a; index w])])
  end.

Definition account_registrations (monitors_of : string -> list Monitor)
    (interval_of : Watcher -> Z) (a : Account) : list event :=
  Called (ReporterAllMonitors (name a))
  :: flat_map (monitor_registrations interval_of a) (monitors_of (name a)).

Definition all_registrations (table : list Account)
    (monitors_of : string -> list Monitor) (interval_of : Watcher -> Z) : list event :=
  Called AccountQueryAll
  :: flat_map (account_registrations monitors_of interval_of) (filter eligible table)
  ++ [Called (AddPeriodicTask (Crontab "0" "3" "*") ClearExpiredExceptions [])].

(** The (account, technology) pair a monitor is scheduled under, if it has a
    watcher, and the pairs of a whole pass, in the order of the pass. *)
Definition monitor_pair (a : Account) (m : Monitor) : list (string * string) :=
  match watcher m with
  | None => []
  | Some w => [(name a, index w)]
  end.

Definition account_pairs (monitors_of : string -> list Monitor) (a : Account)
    : list (string * string) :=
  flat_map (monitor_pair a) (monitors_of (name a)).

Definition scheduled_pairs (table : list Account) (monitors_of : string -> list Monitor)
    : list (string * string) :=
  flat_map (account_pairs monitors_of) (filter eligible table).

(** *** More ways to read a trace *)

(** A task is handed to the Celery application: dispatched now or registered
    with the beat schedule. *)
Definition is_registration (ev : event) : bool :=
  match ev with
  | Called (ApplyAsync _ _) | Called (AddPeriodicTask _ _ _) => true
  | _ => false
  end.

(** The registration of [clear_expired_exceptions]. *)
Definition is_janitor (ev : event) : bool :=
  match ev with
  | Called (AddPeriodicTask _ ClearExpiredExceptions _) => true
  | _ => false
  end.

Definition pair_among (pairs : list (string * string)) (args : list string) : bool :=
  existsb (fun p => same_pair (fst p) (snd p) args) pairs.

(** What is handed to the Celery application is either one of the two task
    executors with the arguments of a pair among [pairs], or the periodic
    [clear_expired_exceptions] without arguments. *)
Definition registers_within (pairs : list (string * string)) (ev : event) : bool :=
  match ev with
  | Called (ApplyAsync TaskAccountTech args) => pair_among pairs args
  | Called (ApplyAsync _ _) => false
  | Called (AddPeriodicTask _ ClearExpiredExceptions args) =>
      match args with [] => true | _ => false end
  | Called (AddPeriodicTask _ _ args) => pair_among pairs args
  | _ => true
  end.

(** An audit report is created or mailed. *)
Definition is_report (ev : event) : bool :=
  match ev with
  | Called (CreateReport _) | Called (EmailReport _ _) => true
  | _ => false
  end.

(** Issues are synchronised with Jira. *)
Definition is_sync (ev : event) : bool :=
  match ev with Called (SyncIssues _ _) => true | _ => false end.

Definition is_capture (ev : event) : bool :=
  match ev with SentryCapture => true | _ => false end.

(** The alerter is asked to report. *)
Definition is_alert (ev : event) : bool :=
  match ev with Called (AlerterReport _ _) => true | _ => false end.



(** What the handler of the two manual entry points leaves in the trace. *)
Definition manual_fault_handled (e : exn) : list event :=
  [LogError msg_manual_database_error [];
   SessionRemove;
   StoreException "scheduler-run-change-reporter" e].

(** What the handler of [setup_the_tasks] leaves in the trace. *)
Definition bootstrap_fault_recorded {E} (env : Env E) (e : exn) : list event :=
  captured env ++
  [LogError msg_scheduler_exception [];
   LogError msg_traceback [];
   StoreException "scheduler" e].

(** The collaborators of the bootstrapper may fail, but what they answer is
    the account table and the monitors of an account. *)
Record bootstrap_reads {E} (env : Env E) (table : list Account)
    (monitors_of : string -> list Monitor) : Prop :=
  { reads_accounts :
      forall s rows s1, oracle env AccountQueryAll s = (Ret rows, s1) -> rows = table;
    reads_monitors :
      forall a s ms s1,
        oracle env (ReporterAllMonitors a) s = (Ret ms, s1) -> ms = monitors_of a }.

(** The monitors a pass of [manual_run_change_reporter] runs. *)
Definition watched (m : Monitor) : bool :=
  match watcher m with Some _ => true | None => false end.

(** The sources under which the handlers for storage faults store. *)
Definition storage_sources : list string :=
  ["scheduler-audit-changes"; "scheduler-task-account-tech";
   "scheduler-run-change-reporter"].

Definition tagged (sources : list string) (source : string) : bool :=
  existsb (String.eqb source) sources.

(** An ExceptionRecord, if the event stores one, has a source among
    [allowed], and under a source of [storage_sources] it holds a storage
    fault. *)
Definition well_tagged (allowed : list string) (ev : event) : bool :=
  match ev with
  | StoreException source e =>
      tagged allowed source
      && (if tagged storage_sources source then is_db_error e else true)
  | _ => true
  end.

(** ** A concrete deployment

    Account ["prod"] with two technologies: ["iamrole"], fetched as one
    snapshot every 15 minutes, and ["s3"], fetched in three pages.  The
    external state is the number of pages of ["s3"] fetched so far.  [fault]
    makes chosen calls raise; [failures] is the exception map of the first
    fetch of the batch watcher. *)
Module Scenario.

Definition iamrole_watcher : Watcher := mkWatcher "iamrole" "iamroles" 0 ["prod"].
Definition s3_watcher : Watcher := mkWatcher "s3" "s3" 50 ["prod"].

Definition iamrole_auditor : Auditor := mkAuditor "iamrole".
Definition policy_auditor : Auditor := mkAuditor "policy".
Definition trust_auditor : Auditor := mkAuditor "trust".
Definition s3_auditor : Auditor := mkAuditor "s3".
Definition acl_auditor : Auditor := mkAuditor "acl".
Definition cors_auditor : Auditor := mkAuditor "cors".

Definition iamrole_monitor : Monitor :=
  mkMonitor (Some iamrole_watcher) [iamrole_auditor; policy_auditor; trust_auditor] false.
Definition s3_monitor : Monitor :=
  mkMonitor (Some s3_watcher) [s3_auditor; acl_auditor; cors_auditor] true.
Definition bare_monitor : Monitor := mkMonitor None [] false.

Definition prod : Account := mkAccount "prod" "AWS" true false.
Definition retired : Account := mkAccount "retired" "AWS" false false.
Definition vendor : Account := mkAccount "vendor" "AWS" true true.

Definition table : list Account := [prod; retired; vendor].

Definition monitors_of (account : string) : list Monitor :=
  if (account =? "prod")%string then [iamrole_monitor; bare_monitor; s3_monitor] else [].

Definition interval_of (w : Watcher) : Z := 15.

Definition watches (names : list string) (m : Monitor) : bool :=
  match watcher m with
  | Some w => existsb (String.eqb (index w)) names
  | None => false
  end.

(** [get_monitors]: the monitors of the requested technologies. *)
Definition resolve (names : list string) : list Monitor :=
  filter (watches names) [iamrole_monitor; s3_monitor].

(** [get_monitors_and_dependencies]: the role audit depends on the buckets. *)
Definition resolve_with_dependencies (names : list string) : list Monitor :=
  if existsb (String.eqb "s3") names then [s3_monitor; iamrole_monitor]
  else resolve names.

Definition page (n : nat) : list item :=
  match n with
  | 0 => ["bucket-1"; "bucket-2"]
  | 1 => ["bucket-3"; "bucket-4"]
  | 2 => ["bucket-5"]
  | _ => []
  end.

Definition answers (failures : exception_map) (c : call) (n : nat) : outcome (answer c) * nat :=
  match c as c0 return outcome (answer c0) * nat with
  | FindModules _ => (Ret tt, n)
  | Purge => (Ret tt, n)
  | AccountQueryAll => (Ret table, n)
  | ReporterAllMonitors a => (Ret (monitors_of a), n)
  | GetInterval w => (Ret (interval_of w), n)
  | ApplyAsync _ _ => (Ret tt, n)
  | AddPeriodicTask _ _ _ => (Ret tt, n)
  | ClearOldExceptions => (Ret tt, n)
  | GetMonitors _ names _ => (Ret (resolve names), n)
  | GetMonitorsAndDependencies _ names _ => (Ret (resolve_with_dependencies names), n)
  | SlurpList _ => (Ret (page 0 ++ page 1 ++ page 2, failures), n)
  | Slurp w =>
      if (index w =? "s3")%string then (Ret (page n, []), S n)
      else (Ret (["role-a"; "role-b"], []), n)
  | WatcherFindChanges _ current _ => (Ret current, n)
  | Save _ => (Ret tt, n)
  | FindDeletedBatch _ _ => (Ret tt, n)
  | ReadPreviousItems _ => (Ret ["role-a"; "role-b"], n)
  | AuditObjects _ _ => (Ret tt, n)
  | SaveIssues _ => (Ret tt, n)
  | CreateReport au => (Ret (au_index au), n)
  | EmailReport _ _ => (Ret tt, n)
  | SyncIssues _ _ => (Ret tt, n)
  | AlerterReport _ _ => (Ret tt, n)
  end.

Definition env (fault : call -> option exn) (failures : exception_map) : Env nat :=
  {| sentry := true;
     jirasync := true;
     oracle := fun c n =>
       match fault c with
       | Some e => (Raise e, n)
       | None => answers failures c n
       end;
     done_slurping := fun _ n => (3 <=? n)%nat |}.

Definition no_fault (c : call) : option exn := None.

(** The healthy deployment. *)
Definition healthy : Env nat := env no_fault [].

(** Every scope of the first fetch of ["s3"] failed. *)
Definition unfetchable : Env nat :=
  env no_fault [(["prod"; "s3"; "us-east-1"], OtherError "ClientError");
                (["prod"; "s3"; "eu-west-1"], OtherError "ClientError")].

(** The snapshot fetch fails with an error that is not a storage fault. *)
Definition fetch_fails (c : call) : option exn :=
  match c with Slurp _ => Some (OtherError "ClientError") | _ => None end.

(** Change detection hits a dropped database connection. *)
Definition storage_down_on_watch (c : call) : option exn :=
  match c with WatcherFindChanges _ _ _ => Some OperationalError | _ => None end.

(** The ["policy"] auditor hits a dropped database connection. *)
Definition storage_down_on_policy (c : call) : option exn :=
  match c with
  | SaveIssues au => if (au_index au =? "policy")%string then Some OperationalError else None
  | _ => None
  end.

(** The ["acl"] auditor hits a dropped database connection. *)
Definition storage_down_on_acl (c : call) : option exn :=
  match c with
  | SaveIssues au => if (au_index au =? "acl")%string then Some OperationalError else None
  | _ => None
  end.

(** The monitor registry is unreachable during audits. *)
Definition registry_down (c : call) : option exn :=
  match c with
  | GetMonitorsAndDependencies _ _ _ => Some (OtherError "RuntimeError")
  | _ => None
  end.

(** The rules of every auditor hit a dropped database connection. *)
Definition storage_down_on_audit (c : call) : option exn :=
  match c with AuditObjects _ _ => Some OperationalError | _ => None end.

(** The account table cannot be read. *)
Definition accounts_unreadable (c : call) : option exn :=
  match c with AccountQueryAll => Some OperationalError | _ => None end.

(** The watcher interval of the buckets cannot be read. *)
Definition interval_unreadable (c : call) : option exn :=
  match c with
  | GetInterval w =>
      if (index w =? "s3")%string then Some (OtherError "KeyError") else None
  | _ => None
  end.

(** The broker is unreachable when the queue is purged. *)
Definition broker_down (c : call) : option exn :=
  match c with Purge => Some (OtherError "ConnectionError") | _ => None end.

(** A plugin fails to import. *)
Definition plugin_broken (c : call) : option exn :=
  match c with
  | FindModules folder =>
      if (folder =? "watchers")%string then Some (OtherError "ImportError") else None
  | _ => None
  end.

(** An auditor raises an error that is not a storage fault. *)
Definition policy_rule_broken (c : call) : option exn :=
  match c with
  | AuditObjects au _ =>
      if (au_index au =? "policy")%string then Some (OtherError "KeyError") else None
  | _ => None
  end.

(** A batch watcher that was built without accounts, and its monitor. *)
Definition orphan_watcher : Watcher := mkWatcher "s3" "s3" 50 [].
Definition orphan_monitor : Monitor :=
  mkMonitor (Some orphan_watcher) [s3_auditor; acl_auditor; cors_auditor] true.

(** The pairs the bootstrapper schedules in this deployment. *)
Definition scheduled_pairs_of_deployment : list (string * string) :=
  scheduled_pairs table monitors_of.

(** The healthy deployment without Sentry and without Jira. *)
Definition plain : Env nat :=
  {| sentry := false;
     jirasync := false;
     oracle := fun c n => answers [] c n;
     done_slurping := fun _ n => (3 <=? n)%nat |}.

(** The snapshot fetch is throttled once: in state 0 it fails and leaves
    state 1, from where every call is answered as in the healthy deployment. *)
Definition throttled_once : Env nat :=
  {| sentry := true;
     jirasync := true;
     oracle := fun c n =>
       match c as c0 return outcome (answer c0) * nat with
       | Slurp w =>
           if (n =? 0)%nat then (Raise (OtherError "Throttled"), 1)
           else answers [] (Slurp w) n
       | c0 => answers [] c0 n
       end;
     done_slurping := fun _ n => (3 <=? n)%nat |}.

(** Change detection of the buckets hits a dropped database connection. *)
Definition storage_down_on_buckets (c : call) : option exn :=
  match c with
  | WatcherFindChanges w _ _ =>
      if (index w =? "s3")%string then Some OperationalError else None
  | _ => None
  end.

(** A rule of the auditors breaks on the items of the last page: a call to
    [audit_objects] in state 3, when the three pages are fetched, raises an
    error that is not a storage fault. *)
Definition last_page_rule_broken : Env nat :=
  {| sentry := true;
     jirasync := true;
     oracle := fun c n =>
       match c as c0 return outcome (answer c0) * nat with
       | AuditObjects au items =>
           if (n =? 3)%nat then (Raise (OtherError "KeyError"), n)
           else answers [] (AuditObjects au items) n
       | c0 => answers [] c0 n
       end;
     done_slurping := fun _ n => (3 <=? n)%nat |}.

(** The reporter lists the role monitor twice for every account. *)
Definition listed_twice : Env nat :=
  {| sentry := true;
     jirasync := true;
     oracle := fun c n =>
       match c as c0 return outcome (answer c0) * nat with
       | ReporterAllMonitors _ => (Ret [iamrole_monitor; iamrole_monitor], n)
       | c0 => answers [] c0 n
       end;
     done_slurping := fun _ n => (3 <=? n)%nat |}.

End Scenario.
(** * Properties *)

(** ** Running the monad *)

Section Runs.

Context {E : Type}.

Lemma bind_Ret A B (m : M E A) (f : A -> M E B) s a s1 ev1 :
  m s = (Ret a, s1, ev1) ->
  bind m f s = (result (f a s1), final (f a s1), ev1 ++ events (f a s1)).
Proof.
  intros Hm. unfold bind. rewrite Hm.
  destruct (f a s1) as [[r s2] ev2]. reflexivity.
Qed.

Lemma bind_Raise A B (m : M E A) (f : A -> M E B) s e s1 ev1 :
  m s = (Raise e, s1, ev1) -> bind m f s = (Raise e, s1, ev1).
Proof. intros Hm. unfold bind. rewrite Hm. reflexivity. Qed.

Lemma bind_Diverge A B (m : M E A) (f : A -> M E B) s s1 ev1 :
  m s = (Diverge, s1, ev1) -> bind m f s = (Diverge, s1, ev1).
Proof. intros Hm. unfold bind. rewrite Hm. reflexivity. Qed.

Lemma try_except_Ret A (m : M E A) h s a s1 ev1 :
  m s = (Ret a, s1, ev1) -> try_except m h s = (Ret a, s1, ev1).
Proof. intros Hm. unfold try_except. rewrite Hm. reflexivity. Qed.

Lemma try_except_Raise A (m : M E A) h s e s1 ev1 :
  m s = (Raise e, s1, ev1) ->
  try_except m h s = (result (h e s1), final (h e s1), ev1 ++ events (h e s1)).
Proof.
  intros Hm. unfold try_except. rewrite Hm.
  destruct (h e s1) as [[r s2] ev2]. reflexivity.
Qed.

Lemma run_eta A (r : outcome A * E * list event) :
  r = (result r, final r, events r).
Proof. destruct r as [[o s] ev]. reflexivity. Qed.

(** A loop over [xs ++ ys] runs the loop over [xs], then the one over [ys]. *)
Lemma for_each_app A (f : A -> M E unit) xs ys s :
  for_each (xs ++ ys) f s = (for_each xs f ;; for_each ys f) s.
Proof.
  revert s. induction xs as [|x xs IH]; intros s; simpl.
  - unfold bind, pure. destruct (for_each ys f s) as [[r s2] ev2]. reflexivity.
  - unfold bind.
    destruct (f x s) as [[[[]|e|] s1] ev1]; try reflexivity.
    rewrite IH. unfold bind.
    destruct (for_each xs f s1) as [[[[]|e|] s2] ev2]; try reflexivity.
    destruct (for_each ys f s2) as [[r s3] ev3]. rewrite app_assoc. reflexivity.
Qed.

(** *** What a piece of program can emit *)

Lemma emits_pure A p (a : A) : emits p (pure a : M E A).
Proof. intros s. reflexivity. Qed.

Lemma emits_raise A p e : emits p (raise e : M E A).
Proof. intros s. reflexivity. Qed.

Lemma emits_diverge A p : emits p (diverge : M E A).
Proof. intros s. reflexivity. Qed.

Lemma emits_emit p ev : p ev = true -> emits p (emit ev : M E unit).
Proof. intros H s. simpl. rewrite H. reflexivity. Qed.

Lemma emits_bind A B p (m : M E A) (f : A -> M E B) :
  emits p m -> (forall a, emits p (f a)) -> emits p (bind m f).
Proof.
  intros Hm Hf s. unfold bind. specialize (Hm s).
  destruct (m s) as [[[a|e|] s1] ev1]; simpl in *; auto.
  specialize (Hf a s1). destruct (f a s1) as [[r s2] ev2]. simpl in *.
  rewrite forallb_app, Hm, Hf. reflexivity.
Qed.

Lemma emits_try_except A p (m : M E A) h :
  emits p m -> (forall e, emits p (h e)) -> emits p (try_except m h).
Proof.
  intros Hm Hh s. unfold try_except. specialize (Hm s).
  destruct (m s) as [[[a|e|] s1] ev1]; simpl in *; auto.
  specialize (Hh e s1). destruct (h e s1) as [[r s2] ev2]. simpl in *.
  rewrite forallb_app, Hm, Hh. reflexivity.
Qed.

Lemma emits_for_each A p (f : A -> M E unit) xs :
  (forall x, emits p (f x)) -> emits p (for_each xs f).
Proof.
  intros Hf. induction xs as [|x xs IH]; simpl.
  - apply emits_pure.
  - apply emits_bind; auto.
Qed.

Lemma emits_when p b (m : M E unit) : emits p m -> emits p (when b m).
Proof. intros Hm. destruct b; simpl; [exact Hm | apply emits_pure]. Qed.

Lemma emits_call (env : Env E) p c : p (Called c) = true -> emits p (do_call env c).
Proof.
  intros H s. unfold do_call. destruct (oracle env c s) as [r s'].
  simpl. rewrite H. reflexivity.
Qed.

End Runs.

(** Decompose a goal [emits p m] along the structure of [m]; the leaves are
    evaluations of [p] at an event. *)
Ltac emits_step :=
  cbv beta;
  lazymatch goal with
  | |- emits _ (bind _ _) => apply emits_bind; [| intros ?]
  | |- emits _ (try_except_db _ _) => unfold try_except_db
  | |- emits _ (try_except _ _) => apply emits_try_except; [| intros ?]
  | |- emits _ (for_each _ _) => apply emits_for_each; intros ?
  | |- emits _ (when _ _) => apply emits_when
  | |- emits _ (pure _) => apply emits_pure
  | |- emits _ (raise _) => apply emits_raise
  | |- emits _ (diverge) => apply emits_diverge
  | |- emits _ (emit _) => apply emits_emit; reflexivity
  | |- emits ?p (do_call ?env ?c) => apply (@emits_call _ env p c); reflexivity
  | |- emits _ (match ?x with _ => _ end) => destruct x
  end.

Ltac emits_auto := repeat emits_step.

(** ** Batch consumer *)

Section BatchConsumer.

Context {E : Type} (env : Env E).

Lemma do_call_Ret c s (v : answer c) s1 :
  oracle env c s = (Ret v, s1) -> do_call env c s = (Ret v, s1, [Called c]).
Proof. intros H. unfold do_call. rewrite H. reflexivity. Qed.

Lemma do_call_Raise c s e s1 :
  oracle env c s = (Raise e, s1) -> do_call env c s = (Raise e, s1, [Called c]).
Proof. intros H. unfold do_call. rewrite H. reflexivity. Qed.

Lemma do_call_events c s : events (do_call env c s) = [Called c].
Proof. unfold do_call. destruct (oracle env c s). reflexivity. Qed.

(** A page makes no call to the deletion reconciliation. *)
Lemma batch_page_never_reconciles monitor cw debug :
  emits (fun ev => negb (is_reconcile ev)) (batch_page env monitor cw debug).
Proof.
  unfold batch_page, _audit_specific_changes, audit_specific_one,
    first_account, watcher_accounts.
  emits_auto.
Qed.

Lemma paging_never_reconciles monitor cw debug n : forall s s2 evs,
  paging env n monitor cw debug s = Some (s2, evs) ->
  filter is_reconcile evs = [].
Proof.
  induction n as [|n IH]; intros s s2 evs H; simpl in H.
  - inversion H. reflexivity.
  - destruct (done_slurping env cw s); [discriminate|].
    pose proof (batch_page_never_reconciles monitor cw debug s) as Hp.
    destruct (batch_page env monitor cw debug s) as [[[[]|e|] s1] ev1]; try discriminate.
    destruct (paging env n monitor cw debug s1) as [[s3 ev2]|] eqn:Hn; [|discriminate].
    inversion H; subst. rewrite filter_app, (IH s1 s2 ev2 Hn), app_nil_r.
    simpl in Hp. clear -Hp. induction ev1 as [|ev evs IH]; simpl in *; [reflexivity|].
    apply andb_true_iff in Hp. destruct Hp as [Hev Hevs].
    destruct (is_reconcile ev); [discriminate | auto].
Qed.

(** The loop emits what its pages emit. *)
Lemma emits_batch_loop p fuel monitor cw debug :
  emits p (batch_page env monitor cw debug) ->
  emits p (batch_loop env fuel monitor cw debug).
Proof.
  intros Hpage. induction fuel as [|fuel IH]; simpl.
  - apply emits_diverge.
  - intros s. destruct (done_slurping env cw s); [reflexivity|].
    apply emits_bind; auto.
Qed.

(** With more fuel than pages, the loop runs exactly the pages. *)
Lemma batch_loop_paging monitor cw debug n : forall fuel s s2 evs,
  paging env n monitor cw debug s = Some (s2, evs) ->
  done_slurping env cw s2 = true ->
  n < fuel ->
  batch_loop env fuel monitor cw debug s = (Ret tt, s2, evs).
Proof.
  induction n as [|n IH]; intros fuel s s2 evs H Hdone Hfuel;
    destruct fuel as [|fuel]; try lia; simpl in *.
  - inversion H; subst. rewrite Hdone. reflexivity.
  - destruct (done_slurping env cw s); [discriminate|].
    unfold bind.
    destruct (batch_page env monitor cw debug s) as [[[[]|e|] s1] ev1]; try discriminate.
    destruct (paging env n monitor cw debug s1) as [[s3 ev2]|] eqn:Hn; [|discriminate].
    inversion H; subst.
    rewrite (IH fuel s1 s2 ev2 Hn Hdone); [reflexivity | lia].
Qed.

(** C3.  When the first fetch of the batch consumer returns a non-empty
    exception map, [batch_logic] returns normally, in the state the first
    fetch left, having made the first fetch and logged one error line naming
    the region of the first failing scope; it has fetched no page, run no
    change detection, run no auditor, reconciled no deletion and stored no
    ExceptionRecord. *)
Theorem batch_logic_aborts_when_nothing_fetched
    fuel monitor cw account debug s items loc e rest s1 :
  oracle env (SlurpList cw) s = (Ret (items, (loc, e) :: rest), s1) ->
  batch_logic env fuel monitor cw account debug s =
    (Ret tt, s1,
     [Called (SlurpList cw);
      LogError msg_nothing_fetched [i_am_plural cw; account; region_of loc]])
  /\ existsb is_batch_work
       (events (batch_logic env fuel monitor cw account debug s)) = false.
Proof.
  intros H.
  assert (Hrun : batch_logic env fuel monitor cw account debug s =
    (Ret tt, s1,
     [Called (SlurpList cw);
      LogError msg_nothing_fetched [i_am_plural cw; account; region_of loc]])).
  { unfold batch_logic. erewrite bind_Ret by (apply do_call_Ret; exact H).
    reflexivity. }
  split; [exact Hrun | rewrite Hrun; reflexivity].
Qed.

(** C4, as the code has it.  When the first fetch succeeds, every one of the
    [n] pages returns normally and the watcher's completion flag is true
    after them, the loop of [batch_logic] terminates (any fuel above [n] is
    enough), and the deletion reconciliation is called once:
    it is the last event of the invocation, after the events of the [n]
    pages. *)
Theorem batch_logic_reconciles_once_after_paging
    fuel monitor cw account debug s items s1 n s2 evs :
  oracle env (SlurpList cw) s = (Ret (items, []), s1) ->
  paging env n monitor cw debug s1 = Some (s2, evs) ->
  done_slurping env cw s2 = true ->
  n < fuel ->
  batch_loop env fuel monitor cw debug s1 = (Ret tt, s2, evs)
  /\ events (batch_logic env fuel monitor cw account debug s) =
       Called (SlurpList cw) :: evs ++ [Called (FindDeletedBatch cw account)]
  /\ filter is_reconcile (events (batch_logic env fuel monitor cw account debug s)) =
       [Called (FindDeletedBatch cw account)]
  /\ result (batch_logic env fuel monitor cw account debug s) =
       fst (oracle env (FindDeletedBatch cw account) s2).
Proof.
  intros Hfirst Hpages Hdone Hfuel.
  pose proof (@batch_loop_paging monitor cw debug n fuel s1 s2 evs Hpages Hdone Hfuel) as Hloop.
  assert (Hrun : batch_logic env fuel monitor cw account debug s =
    (fst (oracle env (FindDeletedBatch cw account) s2),
     snd (oracle env (FindDeletedBatch cw account) s2),
     Called (SlurpList cw) :: evs ++ [Called (FindDeletedBatch cw account)])).
  { unfold batch_logic. erewrite bind_Ret by (apply do_call_Ret; exact Hfirst).
    cbn beta iota. erewrite bind_Ret by exact Hloop.
    unfold do_call. destruct (oracle env (FindDeletedBatch cw account) s2).
    reflexivity. }
  split; [exact Hloop|]. rewrite Hrun. unfold events, result. simpl.
  split; [reflexivity|]. split; [|reflexivity].
  rewrite filter_app, (@paging_never_reconciles monitor cw debug n s1 s2 evs Hpages). reflexivity.
Qed.

End BatchConsumer.

(** The healthy deployment: three pages, then reconciliation. *)
Lemma batch_logic_reconciles_once_after_paging_witness :
  filter is_reconcile
    (events (batch_logic Scenario.healthy 4 Scenario.s3_monitor Scenario.s3_watcher
               "prod" true 0)) =
    [Called (FindDeletedBatch Scenario.s3_watcher "prod")].
Proof.
  refine (proj1 (proj2 (proj2
    (@batch_logic_reconciles_once_after_paging nat Scenario.healthy 4
       Scenario.s3_monitor Scenario.s3_watcher "prod" true 0 _ _ 3 _ _ _ _ _ _)))).
  - reflexivity.
  - reflexivity.
  - reflexivity.
  - lia.
Defined.

(** C4, as stated, fails: the first fetch succeeds and the completion flag
    is true once the third page is fetched, but a rule of the first auditor
    breaks on the items of that page.  The exception is not a storage fault,
    so it leaves the audit and the loop: [batch_logic] ends in it, with the
    flag set, and the deletion reconciliation is never called. *)
Lemma batch_logic_page_fault_skips_reconciliation :
  let r := batch_logic Scenario.last_page_rule_broken 10 Scenario.s3_monitor
             Scenario.s3_watcher "prod" true 0 in
  oracle Scenario.last_page_rule_broken (SlurpList Scenario.s3_watcher) 0 =
    (Ret (Scenario.page 0 ++ Scenario.page 1 ++ Scenario.page 2, []), 0)
  /\ result r = Raise (OtherError "KeyError")
  /\ done_slurping Scenario.last_page_rule_broken Scenario.s3_watcher (final r) = true
  /\ List.length (filter (fun ev => match ev with Called (Slurp _) => true | _ => false end)
                    (events r)) = 3
  /\ filter is_reconcile (events r) = [].
Proof. repeat split; reflexivity. Qed.

(** Every scope of the first fetch failed: nothing else happens. *)
Lemma batch_logic_aborts_when_nothing_fetched_witness :
  existsb is_batch_work
    (events (batch_logic Scenario.unfetchable 4 Scenario.s3_monitor Scenario.s3_watcher
               "prod" true 0)) = false.
Proof.
  refine (proj2
    (@batch_logic_aborts_when_nothing_fetched nat Scenario.unfetchable 4
       Scenario.s3_monitor Scenario.s3_watcher "prod" true 0 _ _ _ _ _ _)).
  reflexivity.
Defined.

(** Decompose [emits p m] for any piece [m] of the module. *)
Ltac emits_module :=
  repeat first
    [ emits_step
    | lazymatch goal with
      | |- emits _ (batch_loop _ _ _ _ _) => apply emits_batch_loop
      end
    | progress unfold find_changes, watch_monitor, batch_logic, batch_page,
        audit_changes, audit_monitor, _audit_changes, _audit_specific_changes,
        audit_one, audit_specific_one, first_account, watcher_accounts,
        reporter_logic, watch_audit_alert, setup, purge_it, capture ].

(** ** Audit orchestrator *)

Section AuditOrchestrator.

Context {E : Type} (env : Env E).

(** A loop whose body raises at some element stops there. *)
Lemma for_each_stops_at_fault A (f : A -> M E unit) pre x post s s1 ev1 e s2 ev2 :
  for_each pre f s = (Ret tt, s1, ev1) ->
  f x s1 = (Raise e, s2, ev2) ->
  for_each (pre ++ x :: post) f s = (Raise e, s2, ev1 ++ ev2).
Proof.
  intros Hpre Hx. rewrite for_each_app. erewrite bind_Ret by exact Hpre.
  simpl. erewrite bind_Raise by exact Hx. reflexivity.
Qed.

Lemma _audit_changes_fault account aus send_report debug s e s1 ev1 :
  for_each aus (audit_one env account send_report) s = (Raise e, s1, ev1) ->
  is_db_error e = true ->
  _audit_changes env account aus send_report debug s =
    (Ret tt, s1, ev1 ++ audit_fault_handled account e).
Proof.
  intros Hloop Hdb. unfold _audit_changes, try_except_db.
  erewrite try_except_Raise by exact Hloop. rewrite Hdb. reflexivity.
Qed.

Lemma _audit_specific_changes_fault monitor w a accts items send_report debug s e s1 ev1 :
  watcher monitor = Some w ->
  accounts w = a :: accts ->
  for_each (auditors monitor) (audit_specific_one env monitor items send_report) s =
    (Raise e, s1, ev1) ->
  is_db_error e = true ->
  _audit_specific_changes env monitor items send_report debug s =
    (Ret tt, s1, ev1 ++ audit_fault_handled a e).
Proof.
  intros Hw Hacc Hloop Hdb. unfold _audit_specific_changes, try_except_db.
  erewrite try_except_Raise by exact Hloop. rewrite Hdb.
  unfold first_account, watcher_accounts. rewrite Hw. unfold bind, pure. simpl.
  rewrite Hacc. reflexivity.
Qed.

(** The auditors themselves store no ExceptionRecord. *)
Lemma auditors_store_nothing account send_report aus :
  emits (fun ev => negb (is_store ev)) (for_each aus (audit_one env account send_report)).
Proof. emits_module. Qed.

Lemma no_store_filter evs :
  forallb (fun ev => negb (is_store ev)) evs = true -> filter is_store evs = [].
Proof.
  induction evs as [|ev evs IH]; simpl; [reflexivity|].
  intros H. apply andb_true_iff in H. destruct H as [Hev Hevs].
  destruct (is_store ev); [discriminate | auto].
Qed.

(** With [skip_batch] set, a batch-supporting monitor is passed over. *)
Lemma audit_monitor_skips_batch account send_report debug monitor s :
  batch_support monitor = true ->
  audit_monitor env account send_report debug true monitor s = (Ret tt, s, []).
Proof. intros Hb. unfold audit_monitor. rewrite Hb. reflexivity. Qed.

(** A sweep with [skip_batch] set is the sweep over the monitors that are not
    batch-supporting. *)
Lemma sweep_skips_batch account send_report debug monitors : forall s,
  for_each monitors (audit_monitor env account send_report debug true) s =
  for_each (filter (fun m => negb (batch_support m)) monitors)
    (audit_monitor env account send_report debug true) s.
Proof.
  induction monitors as [|m ms IH]; intros s; simpl; [reflexivity|].
  destruct (batch_support m) eqn:Hb; simpl.
  - erewrite bind_Ret by (apply audit_monitor_skips_batch; exact Hb).
    rewrite <- IH. simpl. symmetry. apply run_eta.
  - unfold bind. destruct (audit_monitor env account send_report debug true m s)
      as [[[[]|e|] s1] ev1]; try reflexivity.
    rewrite IH. reflexivity.
Qed.

(** C9.  In both modes of the audit orchestrator the handler for transient
    storage faults encloses the whole loop over the auditors: when the
    auditors before position [i] complete and the auditor at position [i]
    raises such a fault, the invocation returns right after the handler has
    run.  The outcome does not depend on the auditors after position [i]:
    none of them is evaluated, has its issues saved or its report sent. *)
Theorem fault_skips_remaining_auditors :
  (forall account send_report debug pre au post s s1 ev1 e s2 ev2,
      for_each pre (audit_one env account send_report) s = (Ret tt, s1, ev1) ->
      audit_one env account send_report au s1 = (Raise e, s2, ev2) ->
      is_db_error e = true ->
      _audit_changes env account (pre ++ au :: post) send_report debug s =
        (Ret tt, s2, (ev1 ++ ev2) ++ audit_fault_handled account e))
  /\
  (forall monitor w a accts items send_report debug pre au post s s1 ev1 e s2 ev2,
      auditors monitor = pre ++ au :: post ->
      watcher monitor = Some w ->
      accounts w = a :: accts ->
      for_each pre (audit_specific_one env monitor items send_report) s = (Ret tt, s1, ev1) ->
      audit_specific_one env monitor items send_report au s1 = (Raise e, s2, ev2) ->
      is_db_error e = true ->
      _audit_specific_changes env monitor items send_report debug s =
        (Ret tt, s2, (ev1 ++ ev2) ++ audit_fault_handled a e)).
Proof.
  split.
  - intros account send_report debug pre au post s s1 ev1 e s2 ev2 Hpre Hau Hdb.
    apply _audit_changes_fault; [|exact Hdb].
    eapply for_each_stops_at_fault; eauto.
  - intros monitor w a accts items send_report debug pre au post s s1 ev1 e s2 ev2
      Haus Hw Hacc Hpre Hau Hdb.
    eapply _audit_specific_changes_fault; eauto.
    rewrite Haus. eapply for_each_stops_at_fault; eauto.
Qed.

Lemma bind_assoc A B C (m : M E A) (f : A -> M E B) (g : B -> M E C) s :
  bind (bind m f) g s = bind m (fun a => bind (f a) g) s.
Proof.
  unfold bind. destruct (m s) as [[[a|e|] s1] ev1]; try reflexivity.
  destruct (f a s1) as [[[b|e|] s2] ev2]; try reflexivity.
  destruct (g b s2) as [[r s3] ev3]. rewrite app_assoc. reflexivity.
Qed.

(** A loop that has come through [done] goes on at [x], then through [rest],
    then with what follows the loop. *)
Lemma for_each_at A B (f : A -> M E unit) done x rest (k : M E B) s s1 ev0 :
  for_each done f s = (Ret tt, s1, ev0) ->
  (for_each (done ++ x :: rest) f ;; k) s =
    (let r := (f x ;; for_each rest f ;; k) s1 in
     (result r, final r, ev0 ++ events r)).
Proof.
  intros Hdone. unfold bind at 1. rewrite for_each_app.
  erewrite bind_Ret by exact Hdone.
  change (for_each (x :: rest) f s1) with ((f x ;; for_each rest f) s1).
  cbv zeta. unfold bind, result, final, events.
  destruct (f x s1) as [[[[]|e|] s2] ev2]; simpl; try reflexivity.
  destruct (for_each rest f s2) as [[[[]|e|] s3] ev3]; simpl; try reflexivity.
  destruct (k s3) as [[r s4] ev4]. simpl. rewrite !app_assoc. reflexivity.
Qed.

(** The sweep of [audit_changes] once the accounts [before] are through and
    the registry has answered for [account]. *)
Lemma audit_changes_at before account after names send_report debug skip_batch
    s00 s0 evb deps s1 :
  audit_changes env before names send_report debug skip_batch s00 = (Ret tt, s0, evb) ->
  oracle env (GetMonitorsAndDependencies account names debug) s0 = (Ret deps, s1) ->
  audit_changes env (before ++ account :: after) names send_report debug skip_batch s00 =
    (let r := (for_each deps (audit_monitor env account send_report debug skip_batch) ;;
               audit_changes env after names send_report debug skip_batch) s1 in
     (result r, final r,
      evb ++ Called (GetMonitorsAndDependencies account names debug) :: events r)).
Proof.
  unfold audit_changes. intros Hbefore Hdeps.
  rewrite for_each_app. erewrite bind_Ret by exact Hbefore.
  change (for_each (account :: after) ?f s0) with ((f account ;; for_each after f) s0).
  cbv beta. rewrite bind_assoc.
  erewrite bind_Ret by (exact (@do_call_Ret _ env _ _ _ _ Hdeps)).
  reflexivity.
Qed.

(** C7.  A transient storage fault raised by the auditors of a monitor does
    not end the sweep of [audit_changes]: wherever the monitor stands in the
    sweep (after the accounts [before] and the monitors [done] of its
    account), the audit of that monitor returns normally, the session is
    removed, one ExceptionRecord is stored, tagged
    ["scheduler-audit-changes"], and [audit_changes] goes on, from the state
    the fault left, with the remaining monitors of the account and then with
    the remaining accounts. *)
Theorem audit_fault_recorded_and_sweep_continues
    before account after names send_report debug skip_batch
    s00 s0 evb done monitor rest s1 s ev0 w e s2 ev1 :
  audit_changes env before names send_report debug skip_batch s00 = (Ret tt, s0, evb) ->
  oracle env (GetMonitorsAndDependencies account names debug) s0 =
    (Ret (done ++ monitor :: rest), s1) ->
  for_each done (audit_monitor env account send_report debug skip_batch) s1 =
    (Ret tt, s, ev0) ->
  watcher monitor = Some w ->
  batch_support monitor && skip_batch = false ->
  for_each (auditors monitor) (audit_one env account send_report) s = (Raise e, s2, ev1) ->
  is_db_error e = true ->
  let remaining :=
    (for_each rest (audit_monitor env account send_report debug skip_batch) ;;
     audit_changes env after names send_report debug skip_batch) s2 in
  audit_changes env (before ++ account :: after) names send_report debug skip_batch s00 =
    (result remaining, final remaining,
     evb ++ Called (GetMonitorsAndDependencies account names debug)
         :: ev0 ++ (ev1 ++ audit_fault_handled account e) ++ events remaining)
  /\ filter is_store (ev1 ++ audit_fault_handled account e) =
       [StoreException "scheduler-audit-changes" e]
  /\ filter is_release (audit_fault_handled account e) = [SessionRemove].
Proof.
  intros Hbefore Hdeps Hdone Hw Hskip Hloop Hdb remaining.
  assert (Hm : audit_monitor env account send_report debug skip_batch monitor s =
               (Ret tt, s2, ev1 ++ audit_fault_handled account e)).
  { unfold audit_monitor. rewrite Hskip, Hw.
    apply _audit_changes_fault; assumption. }
  split; [|split].
  - rewrite (@audit_changes_at before account after names send_report debug skip_batch
               s00 s0 evb (done ++ monitor :: rest) s1 Hbefore Hdeps).
    cbv zeta.
    rewrite (@for_each_at _ _ _ done monitor rest _ s1 s ev0 Hdone). cbv zeta.
    erewrite bind_Ret by exact Hm. reflexivity.
  - rewrite filter_app. rewrite no_store_filter; [reflexivity|].
    pose proof (auditors_store_nothing account send_report (auditors monitor) s) as H.
    rewrite Hloop in H. exact H.
  - reflexivity.
Qed.

End AuditOrchestrator.

(** A dropped connection while the second of three auditors saves its issues:
    the third auditor is never reached, in either mode. *)
Lemma fault_skips_remaining_auditors_witness :
  (let r := _audit_changes (Scenario.env Scenario.storage_down_on_policy []) "prod"
              ([Scenario.iamrole_auditor] ++ Scenario.policy_auditor :: [Scenario.trust_auditor])
              false true 0 in
   result r = Ret tt /\ existsb (is_audit_of "trust") (events r) = false)
  /\
  (let r := _audit_specific_changes (Scenario.env Scenario.storage_down_on_acl [])
              Scenario.s3_monitor (Scenario.page 0) false true 0 in
   result r = Ret tt /\ existsb (is_audit_of "cors") (events r) = false).
Proof.
  split; cbv zeta.
  - rewrite (proj1 (@fault_skips_remaining_auditors nat
               (Scenario.env Scenario.storage_down_on_policy []))
             "prod" false true [Scenario.iamrole_auditor] Scenario.policy_auditor
             [Scenario.trust_auditor] 0 _ _ _ _ _ eq_refl eq_refl eq_refl).
    split; reflexivity.
  - rewrite (proj2 (@fault_skips_remaining_auditors nat
               (Scenario.env Scenario.storage_down_on_acl []))
             Scenario.s3_monitor Scenario.s3_watcher "prod" [] (Scenario.page 0)
             false true [Scenario.s3_auditor] Scenario.acl_auditor
             [Scenario.cors_auditor] 0 _ _ _ _ _
             eq_refl eq_refl eq_refl eq_refl eq_refl eq_refl).
    split; reflexivity.
Defined.

(** A sweep over the buckets and the roles that depend on them, batch
    monitors included: a dropped connection while the ["acl"] auditor of the
    buckets saves its issues leaves one record, and the roles, which follow
    in the sweep, are audited all the same. *)
Lemma audit_fault_recorded_and_sweep_continues_witness :
  let r := audit_changes (Scenario.env Scenario.storage_down_on_acl [])
             ["prod"] ["s3"] false true false 0 in
  result r = Ret tt
  /\ filter is_store (events r) = [StoreException "scheduler-audit-changes" OperationalError]
  /\ existsb (is_audit_of "iamrole") (events r) = true
  /\ existsb (is_audit_of "cors") (events r) = false.
Proof.
  cbv zeta.
  pose proof (proj1
    (@audit_fault_recorded_and_sweep_continues nat
       (Scenario.env Scenario.storage_down_on_acl []) [] "prod" [] ["s3"] false true false
       0 _ _ [] Scenario.s3_monitor [Scenario.iamrole_monitor] _ _ _
       Scenario.s3_watcher OperationalError _ _
       eq_refl eq_refl eq_refl eq_refl eq_refl eq_refl eq_refl)) as Hrun.
  change ([] ++ ["prod"]) with ["prod"] in Hrun. rewrite Hrun.
  repeat split; reflexivity.
Defined.

(** ** Change finder *)

Section ChangeFinder.

Context {E : Type} (env : Env E).

(** Nothing before the last statement of [find_changes] closes the session. *)
Lemma watching_never_closes fuel account_name debug monitors :
  emits (fun ev => negb (is_close ev))
    (for_each monitors (watch_monitor env fuel account_name debug)).
Proof. emits_module. Qed.

Lemma auditing_never_closes accts names send_report debug skip_batch :
  emits (fun ev => negb (is_close ev))
    (audit_changes env accts names send_report debug skip_batch).
Proof. emits_module. Qed.

Lemma no_close_app evs1 evs2 :
  forallb (fun ev => negb (is_close ev)) evs1 = true ->
  forallb (fun ev => negb (is_close ev)) evs2 = true ->
  existsb is_close (evs1 ++ evs2) = false.
Proof.
  intros H1 H2. rewrite existsb_app.
  assert (G : forall evs, forallb (fun ev => negb (is_close ev)) evs = true ->
                          existsb is_close evs = false).
  { induction evs as [|ev evs IH]; simpl; [reflexivity|].
    intros H. apply andb_true_iff in H. destruct H as [Hev Hevs].
    destruct (is_close ev); [discriminate | auto]. }
  rewrite (G _ H1), (G _ H2). reflexivity.
Qed.

(** The run of [find_changes] once its monitors are resolved and watched:
    the audit sweep, then [db.session.close()] if the sweep returned. *)
Lemma find_changes_after_watch fuel a t d s ms s1 s2 ev1 :
  oracle env (GetMonitors a [t] d) s = (Ret ms, s1) ->
  for_each ms (watch_monitor env fuel a d) s1 = (Ret tt, s2, ev1) ->
  find_changes env fuel a t d s =
    (let sweep := audit_changes env [a] [t] false d true s2 in
     let evs := Called (GetMonitors a [t] d) :: ev1 ++ events sweep in
     match result sweep with
     | Ret _ => (Ret ms, final sweep, evs ++ [SessionClose])
     | Raise e => (Raise e, final sweep, evs)
     | Diverge => (Diverge, final sweep, evs)
     end).
Proof.
  intros Hms Hwatch. unfold find_changes.
  erewrite bind_Ret by (exact (@do_call_Ret _ _ _ _ _ _ Hms)).
  erewrite bind_Ret by exact Hwatch.
  unfold default_skip_batch. cbv zeta.
  destruct (audit_changes env [a] [t] false d true s2) as [[[[]|e|] s3] ev2] eqn:Hsweep.
  - erewrite bind_Ret by exact Hsweep. unfold bind, emit, pure, result, final, events.
    simpl. rewrite <- app_assoc. reflexivity.
  - erewrite bind_Raise by exact Hsweep. reflexivity.
  - erewrite bind_Diverge by exact Hsweep. reflexivity.
Qed.

(** The sweep of [audit_changes] for one account, once the registry has
    answered. *)
Lemma audit_changes_one_account a names send_report d skip_batch s deps s1 :
  oracle env (GetMonitorsAndDependencies a names d) s = (Ret deps, s1) ->
  let sweep := for_each deps (audit_monitor env a send_report d skip_batch) s1 in
  audit_changes env [a] names send_report d skip_batch s =
    (result sweep, final sweep,
     Called (GetMonitorsAndDependencies a names d) :: events sweep).
Proof.
  intros Hdeps sweep. subst sweep. unfold audit_changes. simpl. unfold bind.
  rewrite (@do_call_Ret _ _ _ _ _ _ Hdeps).
  destruct (for_each deps (audit_monitor env a send_report d skip_batch) s1)
    as [[[[]|e|] s2] ev2]; unfold pure, result, final, events; simpl;
    rewrite ?app_nil_r; reflexivity.
Qed.

(** C6.  With [skip_batch] set, [audit_changes] passes over a batch-supporting
    monitor without running any of its auditors; and the sweep that
    [find_changes] runs after watching is made with [skip_batch] set: it is
    the sweep over those resolved monitors that are not batch-supporting. *)
Theorem batch_monitors_skipped_by_sweep :
  (forall account send_report debug monitor s,
      batch_support monitor = true ->
      audit_monitor env account send_report debug true monitor s = (Ret tt, s, []))
  /\
  (forall fuel a t d s ms s1 s2 ev1 deps s3,
      oracle env (GetMonitors a [t] d) s = (Ret ms, s1) ->
      for_each ms (watch_monitor env fuel a d) s1 = (Ret tt, s2, ev1) ->
      oracle env (GetMonitorsAndDependencies a [t] d) s2 = (Ret deps, s3) ->
      let sweep :=
        for_each (filter (fun m => negb (batch_support m)) deps)
          (audit_monitor env a false d true) s3 in
      let evs :=
        Called (GetMonitors a [t] d) :: ev1 ++
        Called (GetMonitorsAndDependencies a [t] d) :: events sweep in
      find_changes env fuel a t d s =
        match result sweep with
        | Ret _ => (Ret ms, final sweep, evs ++ [SessionClose])
        | Raise e => (Raise e, final sweep, evs)
        | Diverge => (Diverge, final sweep, evs)
        end).
Proof.
  split.
  - intros. apply audit_monitor_skips_batch. assumption.
  - intros fuel a t d s ms s1 s2 ev1 deps s3 Hms Hwatch Hdeps sweep evs.
    rewrite (@find_changes_after_watch fuel a t d s ms s1 s2 ev1 Hms Hwatch).
    rewrite (@audit_changes_one_account a [t] false d true s2 deps s3 Hdeps).
    rewrite sweep_skips_batch. fold sweep. unfold result, final, events. simpl.
    reflexivity.
Qed.

(** C5, as the code has it.  When [find_changes] returns normally, closing
    the session is the last thing it did, and it did it once.  When it exits
    with an exception, it has not closed the session: there is no [finally],
    and [db.session.close()] is only reached after the audit sweep. *)
Theorem find_changes_closes_session_on_return fuel a t d s :
  (forall ms s' evs,
      find_changes env fuel a t d s = (Ret ms, s', evs) ->
      exists before, evs = before ++ [SessionClose] /\ existsb is_close before = false)
  /\
  (forall e,
      result (find_changes env fuel a t d s) = Raise e ->
      existsb is_close (events (find_changes env fuel a t d s)) = false).
Proof.
  pose proof (fun ms => watching_never_closes fuel a d ms) as Hwatch.
  pose proof (auditing_never_closes [a] [t] false d default_skip_batch) as Haudit.
  assert (Hcall : emits (fun ev => negb (is_close ev)) (do_call env (GetMonitors a [t] d)))
    by emits_module.
  specialize (Hcall s).
  unfold find_changes, bind.
  destruct (do_call env (GetMonitors a [t] d) s) as [[[ms|e0|] s1] ev0].
  - specialize (Hwatch ms s1).
    destruct (for_each ms (watch_monitor env fuel a d) s1) as [[[[]|e1|] s2] ev1].
    + specialize (Haudit s2).
      destruct (audit_changes env [a] [t] false d default_skip_batch s2)
        as [[[[]|e2|] s3] ev2]; unfold emit, pure, result, events in *; simpl in *.
      * split; [|discriminate].
        intros ms' s' evs H. inversion H; subst.
        exists (ev0 ++ ev1 ++ ev2). split.
        -- rewrite <- !app_assoc. reflexivity.
        -- apply no_close_app; [assumption|].
           rewrite forallb_app, Hwatch, Haudit. reflexivity.
      * split; [discriminate|]. intros _ _.
        apply no_close_app; [assumption|].
        rewrite forallb_app, Hwatch, Haudit. reflexivity.
      * split; discriminate.
    + unfold result, events in *; simpl in *. split; [discriminate|].
      intros _ _. apply no_close_app; assumption.
    + split; discriminate.
  - unfold result, events in *; simpl in *. split; [discriminate|]. intros _ _.
    rewrite <- (app_nil_r ev0). apply no_close_app; [assumption|reflexivity].
  - split; discriminate.
Qed.

End ChangeFinder.

(** C5, as stated, fails: the snapshot fetch of the role watcher raises, and
    [find_changes] exits with that exception without having released the
    session in any way. *)
Lemma find_changes_exits_without_releasing_session :
  let r := find_changes (Scenario.env Scenario.fetch_fails []) 4 "prod" "iamrole" true 0 in
  result r = Raise (OtherError "ClientError")
  /\ existsb is_release (events r) = false.
Proof. split; reflexivity. Qed.

(** The healthy deployment: the roles are watched and audited, and the trace
    ends with the session being closed. *)
Lemma find_changes_closes_session_on_return_witness :
  exists before,
    events (find_changes Scenario.healthy 4 "prod" "iamrole" true 0) =
      before ++ [SessionClose]
    /\ existsb is_close before = false.
Proof.
  destruct (proj1 (find_changes_closes_session_on_return Scenario.healthy 4
                     "prod" "iamrole" true 0) _ _ _ eq_refl) as [before H].
  exists before. exact H.
Defined.

(** The healthy deployment, watching the buckets: the sweep that follows
    resolves the bucket monitor and the role monitor, and runs no bucket
    auditor. *)
Lemma batch_monitors_skipped_by_sweep_witness :
  let r := find_changes Scenario.healthy 4 "prod" "s3" true 0 in
  result r = Ret [Scenario.s3_monitor]
  /\ existsb (is_audit_of "iamrole") (events r) = true
  /\ List.length (filter (is_audit_of "s3") (events r)) = 3.
Proof.
  cbv zeta.
  rewrite (proj2 (batch_monitors_skipped_by_sweep Scenario.healthy)
             4 "prod" "s3" true 0 _ _ _ _ _ _ eq_refl eq_refl eq_refl).
  repeat split; reflexivity.
Defined.

(** ** Task executors and the worker *)

Section Worker.

Context {E : Type}.
Variables (t : task_id) (args : list string) (execution : nat -> M E unit).

(** An execution does not start executions, and sends the task again only
    while fewer than [max_retries] retries were made. *)
Hypothesis execution_starts_nothing :
  forall k, emits (fun ev => negb (is_task_start ev)) (execution k).
Hypothesis execution_resends_below_bound :
  forall k s, existsb is_retry_sent (events (execution k s)) = true -> k < max_retries.

Local Ltac arith :=
  unfold max_retries in *;
  try match goal with k : nat |- _ => destruct k as [|[|[|?]]] end;
  simpl in *; lia.

Lemma no_start_attempts evs :
  forallb (fun ev => negb (is_task_start ev)) evs = true -> attempts evs = 0.
Proof.
  unfold attempts. induction evs as [|ev evs IH]; simpl; [reflexivity|].
  intros H. apply andb_true_iff in H. destruct H as [Hev Hevs].
  destruct (is_task_start ev); [discriminate | auto].
Qed.

Lemma attempts_app evs1 evs2 : attempts (evs1 ++ evs2) = attempts evs1 + attempts evs2.
Proof. unfold attempts. rewrite filter_app, length_app. reflexivity. Qed.

(** From [request.retries = k] on, the worker executes the task at most
    [max_retries - k + 1] times. *)
Lemma worker_attempts_from budget : forall k s,
  attempts (events (worker budget t args execution k s)) <= S (max_retries - k).
Proof.
  induction budget as [|budget IH]; intros k s; simpl.
  - unfold attempts. simpl. arith.
  - unfold bind, emit.
    pose proof (execution_starts_nothing k s) as Hquiet.
    pose proof (execution_resends_below_bound k s) as Hbound.
    destruct (execution k s) as [[r s1] ev1]. unfold events in *. simpl in *.
    assert (Hone : attempts (TaskStart t args k :: ev1) = 1).
    { change (TaskStart t args k :: ev1) with ([TaskStart t args k] ++ ev1).
      rewrite attempts_app, (no_start_attempts _ Hquiet). reflexivity. }
    destruct r as [[]|e|]; simpl.
    + destruct (existsb is_retry_sent ev1) eqn:Hsent.
      * specialize (IH (S k) s1).
        destruct (worker budget t args execution (S k) s1) as [[r2 s2] ev2].
        simpl in *.
        change (TaskStart t args k :: ev1 ++ ev2)
          with ((TaskStart t args k :: ev1) ++ ev2).
        rewrite attempts_app, Hone. specialize (Hbound eq_refl). arith.
      * simpl. rewrite Hone. arith.
    + destruct (existsb is_retry_sent ev1) eqn:Hsent.
      * specialize (IH (S k) s1).
        destruct (worker budget t args execution (S k) s1) as [[r2 s2] ev2].
        simpl in *.
        change (TaskStart t args k :: ev1 ++ ev2)
          with ((TaskStart t args k :: ev1) ++ ev2).
        rewrite attempts_app, Hone. specialize (Hbound eq_refl). arith.
      * simpl. rewrite Hone. arith.
    + rewrite Hone. arith.
Qed.

(** A budget above [max_retries] is enough for the worker to come to an end,
    when the executions themselves do. *)
Lemma worker_enough_budget :
  (forall k s, result (execution k s) <> Diverge) ->
  forall budget k s,
    max_retries - k < budget ->
    result (worker budget t args execution k s) <> Diverge.
Proof.
  intros Hends. induction budget as [|budget IH]; intros k s Hb; [arith|]. simpl.
  unfold bind, emit.
  pose proof (Hends k s) as Hk.
  pose proof (execution_resends_below_bound k s) as Hbound.
  destruct (execution k s) as [[r s1] ev1]. unfold result, events in *. simpl in *.
  destruct r as [[]|e|]; simpl; try congruence.
  - destruct (existsb is_retry_sent ev1).
    + specialize (IH (S k) s1). specialize (Hbound eq_refl).
      destruct (worker budget t args execution (S k) s1) as [[r2 s2] ev2].
      simpl in *. apply IH. arith.
    + simpl. discriminate.
  - destruct (existsb is_retry_sent ev1).
    + specialize (IH (S k) s1). specialize (Hbound eq_refl).
      destruct (worker budget t args execution (S k) s1) as [[r2 s2] ev2].
      simpl in *. apply IH. arith.
    + simpl. discriminate.
Qed.

End Worker.

Section TaskExecutors.

Context {E : Type} (env : Env E).

(** [self.retry(exc=e)] with [throw] left at its default always raises. *)
Lemma retry_run t args k e s :
  @retry E t args k e true s = (Raise (retry_raises k e), s, retry_sends t args k).
Proof.
  unfold retry, retry_raises, retry_sends.
  destruct (max_retries <? S k)%nat; reflexivity.
Qed.

Lemma capture_run s : capture env s = (Ret tt, s, captured env).
Proof. unfold capture, captured, when. destruct (sentry env); reflexivity. Qed.

(** The handler of either task: record, then retry. *)
Lemma task_handler_run msg source t a tech k e s (finish : exn -> M E unit) :
  (capture env ;;
   emit (LogError msg [a; tech]) ;;
   emit (LogError msg_traceback []) ;;
   emit (StoreException source e) ;;
   r <- retry t [a; tech] k e true ;;
   finish r) s =
  (Raise (retry_raises k e), s,
   task_fault_recorded env msg source a tech e ++ retry_sends t [a; tech] k).
Proof.
  erewrite bind_Ret by apply capture_run.
  unfold task_fault_recorded, bind, emit. rewrite retry_run.
  unfold result, final, events. simpl. rewrite <- app_assoc. reflexivity.
Qed.

Lemma task_account_tech_fault fuel k a t s s0 ev0 e s1 ev1 :
  setup env s = (Ret tt, s0, ev0) ->
  reporter_logic env fuel a t s0 = (Raise e, s1, ev1) ->
  task_account_tech env fuel k a t s =
    (Raise (retry_raises k e), s1,
     ev0 ++ ev1 ++
     task_fault_recorded env msg_watch_exception "scheduler-exception-on-watch" a t e ++
     retry_sends TaskAccountTech [a; t] k).
Proof.
  intros Hsetup Hbody. unfold task_account_tech.
  erewrite bind_Ret by exact Hsetup.
  erewrite try_except_Raise by exact Hbody.
  rewrite task_handler_run. reflexivity.
Qed.

Lemma task_audit_fault k a t s s0 ev0 e s1 ev1 :
  setup env s = (Ret tt, s0, ev0) ->
  audit_changes env [a] [t] true default_debug default_skip_batch s0 = (Raise e, s1, ev1) ->
  task_audit env k a t s =
    (Raise (retry_raises k e), s1,
     ev0 ++ ev1 ++
     task_fault_recorded env msg_audit_exception "scheduler-exception-on-audit" a t e ++
     retry_sends TaskAudit [a; t] k).
Proof.
  intros Hsetup Hbody. unfold task_audit.
  erewrite bind_Ret by exact Hsetup.
  erewrite try_except_Raise by exact Hbody.
  rewrite task_handler_run. reflexivity.
Qed.

(** Neither task starts an execution itself. *)
Lemma task_account_tech_starts_nothing fuel a t k :
  emits (fun ev => negb (is_task_start ev)) (task_account_tech env fuel k a t).
Proof. unfold task_account_tech, retry. emits_module. Qed.

Lemma task_audit_starts_nothing a t k :
  emits (fun ev => negb (is_task_start ev)) (task_audit env k a t).
Proof. unfold task_audit, retry. emits_module. Qed.

(** Once [max_retries] retries were made, neither task sends itself again. *)
Lemma task_account_tech_gives_up fuel a t k :
  max_retries <= k ->
  emits (fun ev => negb (is_retry_sent ev)) (task_account_tech env fuel k a t).
Proof.
  intros Hk. unfold task_account_tech, retry.
  replace (max_retries <? S k)%nat with true
    by (symmetry; apply Nat.ltb_lt; lia).
  emits_module.
Qed.

Lemma task_audit_gives_up a t k :
  max_retries <= k ->
  emits (fun ev => negb (is_retry_sent ev)) (task_audit env k a t).
Proof.
  intros Hk. unfold task_audit, retry.
  replace (max_retries <? S k)%nat with true
    by (symmetry; apply Nat.ltb_lt; lia).
  emits_module.
Qed.

Lemma resend_below_bound (m : nat -> M E unit) :
  (forall k, max_retries <= k -> emits (fun ev => negb (is_retry_sent ev)) (m k)) ->
  forall k s, existsb is_retry_sent (events (m k s)) = true -> k < max_retries.
Proof.
  intros Hm k s Hsent. destruct (Nat.lt_ge_cases k max_retries) as [Hlt|Hge]; [exact Hlt|].
  specialize (Hm k Hge s). exfalso. revert Hm Hsent.
  induction (events (m k s)) as [|ev evs IH]; simpl; [discriminate|].
  intros H1 H2. apply andb_true_iff in H1. destruct H1 as [Hev Hevs].
  destruct (is_retry_sent ev); [discriminate | auto].
Qed.

(** C2, as the code has it.  Whatever the body of [task_account_tech] raises
    is recorded with source ["scheduler-exception-on-watch"] and the execution
    ends in an exception; the task is sent again while fewer than
    [max_retries = 3] retries were made.  So the unit is executed at most
    [max_retries + 1 = 4] times: the first execution and at most 3 retries. *)
Theorem task_account_tech_records_and_retries fuel a t :
  (forall budget s,
      attempts (events (run_task_account_tech env budget fuel a t s)) <= S max_retries)
  /\
  (forall k s s0 ev0 e s1 ev1,
      setup env s = (Ret tt, s0, ev0) ->
      reporter_logic env fuel a t s0 = (Raise e, s1, ev1) ->
      task_account_tech env fuel k a t s =
        (Raise (retry_raises k e), s1,
         ev0 ++ ev1 ++
         task_fault_recorded env msg_watch_exception "scheduler-exception-on-watch" a t e ++
         retry_sends TaskAccountTech [a; t] k)).
Proof.
  split.
  - intros budget s. unfold run_task_account_tech.
    pose proof (@worker_attempts_from E TaskAccountTech [a; t]
                  (fun k => task_account_tech env fuel k a t)
                  (task_account_tech_starts_nothing fuel a t)
                  (resend_below_bound _ (task_account_tech_gives_up fuel a t))
                  budget 0 s) as H.
    rewrite Nat.sub_0_r in H. exact H.
  - intros. eapply task_account_tech_fault; eassumption.
Qed.

(** C8, as the code has it.  Whatever the body of [task_audit] raises is
    recorded with source ["scheduler-exception-on-audit"]; [self.retry]
    raises by itself, so the execution is aborted although the handler has no
    [raise], and the task is sent again under the bound of
    [task_account_tech]: at most [max_retries + 1 = 4] executions. *)
Theorem task_audit_records_and_retries a t :
  (forall budget s,
      attempts (events (run_task_audit env budget a t s)) <= S max_retries)
  /\
  (forall k s s0 ev0 e s1 ev1,
      setup env s = (Ret tt, s0, ev0) ->
      audit_changes env [a] [t] true default_debug default_skip_batch s0 = (Raise e, s1, ev1) ->
      task_audit env k a t s =
        (Raise (retry_raises k e), s1,
         ev0 ++ ev1 ++
         task_fault_recorded env msg_audit_exception "scheduler-exception-on-audit" a t e ++
         retry_sends TaskAudit [a; t] k)).
Proof.
  split.
  - intros budget s. unfold run_task_audit.
    pose proof (@worker_attempts_from E TaskAudit [a; t]
                  (fun k => task_audit env k a t)
                  (task_audit_starts_nothing a t)
                  (resend_below_bound _ (task_audit_gives_up a t))
                  budget 0 s) as H.
    rewrite Nat.sub_0_r in H. exact H.
  - intros. eapply task_audit_fault; eassumption.
Qed.

(** C10.  A transient storage fault that escapes the watch, audit and alert
    of [reporter_logic] is recorded twice in one execution of
    [task_account_tech]: [reporter_logic] removes the session, stores it with
    source ["scheduler-task-account-tech"] and raises it again; the task's
    own handler stores it with source ["scheduler-exception-on-watch"] and
    retries. *)
Theorem watch_fault_is_recorded_twice fuel k a t s s0 ev0 e s1 ev1 :
  setup env s = (Ret tt, s0, ev0) ->
  watch_audit_alert env fuel a t s0 = (Raise e, s1, ev1) ->
  is_db_error e = true ->
  let handled :=
    watch_fault_handled a t e ++
    task_fault_recorded env msg_watch_exception "scheduler-exception-on-watch" a t e ++
    retry_sends TaskAccountTech [a; t] k in
  task_account_tech env fuel k a t s = (Raise (retry_raises k e), s1, ev0 ++ ev1 ++ handled)
  /\ filter is_store handled =
       [StoreException "scheduler-task-account-tech" e;
        StoreException "scheduler-exception-on-watch" e]
  /\ filter is_release handled = [SessionRemove].
Proof.
  intros Hsetup Hbody Hdb handled.
  assert (Hrep : reporter_logic env fuel a t s0 =
                 (Raise e, s1, ev1 ++ watch_fault_handled a t e)).
  { unfold reporter_logic, try_except_db.
    erewrite try_except_Raise by exact Hbody. rewrite Hdb. reflexivity. }
  split; [|split].
  - rewrite (@task_account_tech_fault fuel k a t s s0 ev0 e s1 _ Hsetup Hrep).
    unfold handled. rewrite <- !app_assoc. reflexivity.
  - unfold handled, task_fault_recorded, captured, retry_sends, watch_fault_handled.
    destruct (sentry env), (max_retries <? S k)%nat; reflexivity.
  - unfold handled, task_fault_recorded, captured, retry_sends, watch_fault_handled.
    destruct (sentry env), (max_retries <? S k)%nat; reflexivity.
Qed.

End TaskExecutors.

(** C2, as stated, fails: with a snapshot fetch that keeps failing, the
    worker executes [task_account_tech] four times, at [request.retries] 0,
    1, 2 and 3, before the exception is left to Celery. *)
Lemma task_account_tech_is_executed_four_times :
  let r := run_task_account_tech (Scenario.env Scenario.fetch_fails []) 10 4
             "prod" "iamrole" 0 in
  attempts (events r) = 4
  /\ filter is_task_start (events r) =
       [TaskStart TaskAccountTech ["prod"; "iamrole"] 0;
        TaskStart TaskAccountTech ["prod"; "iamrole"] 1;
        TaskStart TaskAccountTech ["prod"; "iamrole"] 2;
        TaskStart TaskAccountTech ["prod"; "iamrole"] 3]
  /\ result r = Raise (OtherError "ClientError").
Proof. repeat split; reflexivity. Qed.

(** C8, as stated, fails in the same way: with an unreachable monitor
    registry the worker executes [task_audit] four times. *)
Lemma task_audit_is_executed_four_times :
  let r := run_task_audit (Scenario.env Scenario.registry_down []) 10
             "prod" "iamrole" 0 in
  attempts (events r) = 4
  /\ filter is_task_start (events r) =
       [TaskStart TaskAudit ["prod"; "iamrole"] 0;
        TaskStart TaskAudit ["prod"; "iamrole"] 1;
        TaskStart TaskAudit ["prod"; "iamrole"] 2;
        TaskStart TaskAudit ["prod"; "iamrole"] 3]
  /\ result r = Raise (OtherError "RuntimeError").
Proof. repeat split; reflexivity. Qed.

(** The first execution with a failing snapshot fetch: recorded, sent again,
    ended by [Retry]. *)
Lemma task_account_tech_records_and_retries_witness :
  let r := task_account_tech (Scenario.env Scenario.fetch_fails []) 4 0
             "prod" "iamrole" 0 in
  result r = Raise (Retry (OtherError "ClientError"))
  /\ filter is_store (events r) =
       [StoreException "scheduler-exception-on-watch" (OtherError "ClientError")]
  /\ filter is_retry_sent (events r) = [RetrySent TaskAccountTech ["prod"; "iamrole"] 1].
Proof.
  cbv zeta.
  rewrite (proj2 (@task_account_tech_records_and_retries nat
                    (Scenario.env Scenario.fetch_fails []) 4 "prod" "iamrole")
             0 0 _ _ _ _ _ eq_refl eq_refl).
  repeat split; reflexivity.
Defined.

(** The first execution with an unreachable registry: recorded, sent again,
    ended by [Retry]. *)
Lemma task_audit_records_and_retries_witness :
  let r := task_audit (Scenario.env Scenario.registry_down []) 0 "prod" "iamrole" 0 in
  result r = Raise (Retry (OtherError "RuntimeError"))
  /\ filter is_store (events r) =
       [StoreException "scheduler-exception-on-audit" (OtherError "RuntimeError")]
  /\ filter is_retry_sent (events r) = [RetrySent TaskAudit ["prod"; "iamrole"] 1].
Proof.
  cbv zeta.
  rewrite (proj2 (@task_audit_records_and_retries nat
                    (Scenario.env Scenario.registry_down []) "prod" "iamrole")
             0 0 _ _ _ _ _ eq_refl eq_refl).
  repeat split; reflexivity.
Defined.

(** A dropped connection during change detection of the roles: two records
    for the one fault. *)
Lemma watch_fault_is_recorded_twice_witness :
  filter is_store
    (events (task_account_tech (Scenario.env Scenario.storage_down_on_watch []) 4 0
               "prod" "iamrole" 0)) =
    [StoreException "scheduler-task-account-tech" OperationalError;
     StoreException "scheduler-exception-on-watch" OperationalError].
Proof.
  rewrite (proj1 (@watch_fault_is_recorded_twice nat
                    (Scenario.env Scenario.storage_down_on_watch []) 4 0
                    "prod" "iamrole" 0 _ _ OperationalError _ _
                    eq_refl eq_refl eq_refl)).
  reflexivity.
Defined.

(** ** Scheduler bootstrapper *)

Section ListFacts.

Context {A B K : Type}.

Lemma NoDup_app_disjoint (l1 l2 : list K) k :
  NoDup (l1 ++ l2) -> In k l1 -> In k l2 -> False.
Proof.
  induction l1 as [|x l1 IH]; simpl; intros Hnd H1 H2; [contradiction|].
  apply NoDup_cons_iff in Hnd. destruct Hnd as [Hx Hnd]. destruct H1 as [->|H1].
  - apply Hx. apply in_or_app. right. exact H2.
  - exact (IH Hnd H1 H2).
Qed.

Lemma flat_map_nil (g : A -> list B) l :
  (forall y, In y l -> g y = []) -> flat_map g l = [].
Proof.
  induction l as [|y l IH]; simpl; intros H; [reflexivity|].
  rewrite (H y (or_introl eq_refl)), IH; [reflexivity|].
  intros z Hz. apply H. right. exact Hz.
Qed.

Lemma filter_flat_map (p : B -> bool) (g : A -> list B) l :
  filter p (flat_map g l) = flat_map (fun x => filter p (g x)) l.
Proof.
  induction l as [|y l IH]; simpl; [reflexivity|].
  rewrite filter_app, IH. reflexivity.
Qed.

Lemma NoDup_flat_map_In (key : A -> list K) l x :
  NoDup (flat_map key l) -> In x l -> NoDup (key x).
Proof.
  induction l as [|y l IH]; simpl; intros Hnd Hx; [contradiction|].
  destruct Hx as [->|Hx].
  - exact (NoDup_app_remove_r _ _ Hnd).
  - exact (IH (NoDup_app_remove_l _ _ Hnd) Hx).
Qed.

(** Among elements with distinct keys, only the one that holds [k]
    contributes, when those that do not hold [k] contribute nothing. *)
Lemma flat_map_unique (key : A -> list K) (g : A -> list B) (k : K) l x :
  NoDup (flat_map key l) ->
  In x l ->
  In k (key x) ->
  (forall y, ~ In k (key y) -> g y = []) ->
  flat_map g l = g x.
Proof.
  intros Hnd Hx Hk Hother. induction l as [|y l IH]; simpl in *; [contradiction|].
  destruct Hx as [->|Hx].
  - rewrite flat_map_nil; [apply app_nil_r|].
    intros z Hz. apply Hother. intros Hkz.
    apply (NoDup_app_disjoint _ _ k Hnd Hk).
    apply in_flat_map. exists z. split; assumption.
  - rewrite (Hother y).
    + apply IH; [exact (NoDup_app_remove_l _ _ Hnd) | exact Hx].
    + intros Hky. apply (NoDup_app_disjoint _ _ k Hnd Hky).
      apply in_flat_map. exists x. split; assumption.
Qed.

End ListFacts.

Section Bootstrapper.

Context {E : Type} (env : Env E).
Variables (table : list Account) (monitors_of : string -> list Monitor)
  (interval_of : Watcher -> Z).
Hypothesis answered : bootstrap_answers env table monitors_of interval_of.

Lemma returns_pure A (v : A) : returns (pure v : M E A) v [].
Proof. intros s. split; reflexivity. Qed.

Lemma returns_bind A B (m : M E A) (f : A -> M E B) v w evs1 evs2 :
  returns m v evs1 -> returns (f v) w evs2 -> returns (bind m f) w (evs1 ++ evs2).
Proof.
  intros Hm Hf s. unfold bind. destruct (Hm s) as [Hr Hev].
  destruct (m s) as [[r s1] ev1]. unfold result, events in *. simpl in *. subst.
  destruct (Hf s1) as [Hr2 Hev2]. destruct (f v s1) as [[r2 s2] ev2].
  unfold result, events in *. simpl in *. subst. split; reflexivity.
Qed.

Lemma returns_for_each A (f : A -> M E unit) (g : A -> list event) xs :
  (forall x, returns (f x) tt (g x)) -> returns (for_each xs f) tt (flat_map g xs).
Proof.
  intros Hf. induction xs as [|x xs IH]; simpl.
  - apply returns_pure.
  - eapply returns_bind; [apply Hf | exact IH].
Qed.

Lemma returns_call c (v : answer c) :
  (forall s, fst (oracle env c s) = Ret v) -> returns (do_call env c) v [Called c].
Proof.
  intros H s. unfold do_call. specialize (H s).
  destruct (oracle env c s) as [r s1]. simpl in H. subst. split; reflexivity.
Qed.

Lemma schedule_monitor_returns a m :
  returns (schedule_monitor env a m) tt (monitor_registrations interval_of a m).
Proof.
  unfold schedule_monitor, monitor_registrations. destruct (watcher m) as [w|].
  - eapply returns_bind with (evs1 := [_]);
      [exact (@returns_call (GetInterval w) _ (answers_interval answered w))|].
    eapply returns_bind with (evs1 := [_]);
      [exact (@returns_call (ApplyAsync _ _) tt (answers_apply_async answered _ _))|].
    eapply returns_bind with (evs1 := [_]);
      [exact (@returns_call (AddPeriodicTask _ _ _) tt (answers_add_periodic answered _ _ _))|].
    unfold when. destruct (batch_support m); simpl.
    + apply returns_pure.
    + exact (@returns_call (AddPeriodicTask _ _ _) tt (answers_add_periodic answered _ _ _)).
  - apply returns_pure.
Qed.

Lemma schedule_account_returns a :
  returns (schedule_account env a) tt (account_registrations monitors_of interval_of a).
Proof.
  unfold schedule_account, account_registrations.
  eapply returns_bind with (evs1 := [_]);
    [exact (@returns_call (ReporterAllMonitors _) _ (answers_monitors answered _))|].
  apply returns_for_each. intros m. apply schedule_monitor_returns.
Qed.

Lemma schedule_all_returns :
  returns (schedule_all env) tt (all_registrations table monitors_of interval_of).
Proof.
  unfold schedule_all, all_registrations.
  eapply returns_bind with (evs1 := [_]);
    [exact (@returns_call AccountQueryAll _ (answers_accounts answered))|].
  eapply returns_bind.
  - apply returns_for_each. intros a. apply schedule_account_returns.
  - exact (@returns_call (AddPeriodicTask _ _ _) tt (answers_add_periodic answered _ _ _)).
Qed.

(** The whole pass: module discovery, purge, then the registrations; the
    handler is not entered. *)
Lemma setup_the_tasks_returns :
  returns (setup_the_tasks env) tt
    ([Called (FindModules "alerters"); Called (FindModules "watchers");
      Called (FindModules "auditors"); Called Purge]
     ++ all_registrations table monitors_of interval_of).
Proof.
  unfold setup_the_tasks, setup, purge_it.
  assert (Hm : forall f, returns (do_call env (FindModules f)) tt [Called (FindModules f)])
    by (intros f; exact (@returns_call (FindModules f) tt (answers_modules answered f))).
  change ([Called (FindModules "alerters"); Called (FindModules "watchers");
           Called (FindModules "auditors"); Called Purge]
          ++ all_registrations table monitors_of interval_of)
    with (([Called (FindModules "alerters")] ++ [Called (FindModules "watchers")]
           ++ [Called (FindModules "auditors")])
          ++ [Called Purge] ++ all_registrations table monitors_of interval_of).
  eapply returns_bind.
  - eapply returns_bind; [apply Hm|]. eapply returns_bind; [apply Hm|]. apply Hm.
  - eapply returns_bind; [exact (@returns_call Purge tt (answers_purge answered))|].
    intros s. destruct (schedule_all_returns s) as [Hr Hev].
    unfold try_except. destruct (schedule_all env s) as [[r s1] ev1].
    unfold result, events in *. simpl in *. subst. split; reflexivity.
Qed.

(** Registrations for the pair of account [a] and watcher [w]: a filter [p]
    that passes over the rest of the pass and over the registrations of every
    other pair keeps what it keeps of the registrations of this monitor. *)
Section Pair.

Variables (a : Account) (m : Monitor) (w : Watcher).
Hypothesis a_listed : In a table.
Hypothesis a_eligible : eligible a = true.
Hypothesis m_listed : In m (monitors_of (name a)).
Hypothesis m_watched : watcher m = Some w.
Hypothesis pairs_distinct : NoDup (scheduled_pairs table monitors_of).

Variable p : event -> bool.
Hypothesis p_modules : forall f, p (Called (FindModules f)) = false.
Hypothesis p_purge : p (Called Purge) = false.
Hypothesis p_query : p (Called AccountQueryAll) = false.
Hypothesis p_reporter : forall n, p (Called (ReporterAllMonitors n)) = false.
Hypothesis p_janitor :
  forall sched, p (Called (AddPeriodicTask sched ClearExpiredExceptions [])) = false.
Hypothesis p_other_pairs :
  forall a' m',
    ~ In (name a, index w) (monitor_pair a' m') ->
    filter p (monitor_registrations interval_of a' m') = [].

Lemma pair_in_account : In (name a, index w) (account_pairs monitors_of a).
Proof.
  unfold account_pairs. apply in_flat_map. exists m. split; [exact m_listed|].
  unfold monitor_pair. rewrite m_watched. left. reflexivity.
Qed.

Lemma other_accounts_filtered a' :
  ~ In (name a, index w) (account_pairs monitors_of a') ->
  filter p (account_registrations monitors_of interval_of a') = [].
Proof.
  intros Hnot. unfold account_registrations. simpl. rewrite p_reporter.
  rewrite filter_flat_map. apply flat_map_nil. intros m' Hm'.
  apply p_other_pairs. intros Hin. apply Hnot.
  unfold account_pairs. apply in_flat_map. exists m'. split; assumption.
Qed.

Lemma this_account_filtered :
  filter p (account_registrations monitors_of interval_of a) =
  filter p (monitor_registrations interval_of a m).
Proof.
  unfold account_registrations. simpl. rewrite p_reporter, filter_flat_map.
  apply (@flat_map_unique _ _ _ (monitor_pair a)
           (fun m' => filter p (monitor_registrations interval_of a m'))
           (name a, index w) (monitors_of (name a)) m).
  - apply (@NoDup_flat_map_In _ _ (account_pairs monitors_of) (filter eligible table) a).
    + exact pairs_distinct.
    + apply filter_In. split; assumption.
  - exact m_listed.
  - unfold monitor_pair. rewrite m_watched. left. reflexivity.
  - intros m' Hm'. apply p_other_pairs. exact Hm'.
Qed.

Lemma pass_filtered s :
  filter p (events (setup_the_tasks env s)) =
  filter p (monitor_registrations interval_of a m).
Proof.
  rewrite (proj2 (setup_the_tasks_returns s)).
  unfold all_registrations. simpl.
  rewrite !p_modules, p_purge, p_query, filter_app. simpl. rewrite p_janitor, app_nil_r.
  rewrite filter_flat_map, <- this_account_filtered.
  apply (@flat_map_unique _ _ _ (account_pairs monitors_of)
           (fun a' => filter p (account_registrations monitors_of interval_of a'))
           (name a, index w) (filter eligible table) a).
  - exact pairs_distinct.
  - apply filter_In. split; assumption.
  - exact pair_in_account.
  - exact other_accounts_filtered.
Qed.

End Pair.

Lemma other_pair_differs (x y x' y' : string) :
  ~ In (x, y) [(x', y')] -> ((x =? x')%string && (y =? y')%string) = false.
Proof.
  intros H. destruct (String.eqb_spec x x') as [->|]; [|reflexivity].
  destruct (String.eqb_spec y y') as [->|]; [|reflexivity].
  exfalso. apply H. left. reflexivity.
Qed.

(** C1, as the code has it.  When the collaborators of the bootstrapper
    answer and the scheduled (account, technology) pairs are distinct, then
    for every active,
    first-party account and every monitor of it that has a watcher,
    [setup_the_tasks] returns having made, for that pair, one immediate
    registration of [task_account_tech], one periodic registration of it,
    every [interval * 60] seconds, and a [crontab(hour=10,
    day_of_week="mon-fri")] registration of [task_audit] if and only if the
    monitor is not batch-supporting. *)
Theorem bootstrap_registers_each_pair a m w s :
  In a table ->
  active a = true ->
  third_party a = false ->
  In m (monitors_of (name a)) ->
  watcher m = Some w ->
  NoDup (scheduled_pairs table monitors_of) ->
  let evs := events (setup_the_tasks env s) in
  result (setup_the_tasks env s) = Ret tt
  /\ filter (is_immediate (name a) (index w)) evs =
       [Called (ApplyAsync TaskAccountTech [name a; index w])]
  /\ filter (is_periodic (name a) (index w)) evs =
       [Called (AddPeriodicTask (Every (interval_of w * 60)) TaskAccountTech
                  [name a; index w])]
  /\ filter (is_periodic_audit (name a) (index w)) evs =
       (if batch_support m then []
        else [Called (AddPeriodicTask (Crontab "*" "10" "mon-fri") TaskAudit
                        [name a; index w])]).
Proof.
  intros Ha Hactive Hfirst Hm Hw Hnd evs.
  assert (Hel : eligible a = true) by (unfold eligible; rewrite Hactive, Hfirst; reflexivity).
  split; [exact (proj1 (setup_the_tasks_returns s))|].
  unfold evs.
  assert (Hfilter : forall p,
            (forall a' w' b,
                ~ In (name a, index w) [(name a', index w')] ->
                filter p (monitor_registrations interval_of a'
                            (mkMonitor (Some w') [] b)) = []) ->
            (forall f, p (Called (FindModules f)) = false) ->
            p (Called Purge) = false ->
            p (Called AccountQueryAll) = false ->
            (forall n, p (Called (ReporterAllMonitors n)) = false) ->
            (forall sched,
                p (Called (AddPeriodicTask sched ClearExpiredExceptions [])) = false) ->
            filter p (events (setup_the_tasks env s)) =
            filter p (monitor_registrations interval_of a m)).
  { intros p Hother H1 H2 H3 H4 H5.
    apply (@pass_filtered a m w Ha Hel Hm Hw Hnd p H1 H2 H3 H4 H5).
    intros a' m' Hnot. unfold monitor_pair in Hnot.
    specialize (Hother a').
    unfold monitor_registrations in *. simpl in Hother.
    destruct (watcher m') as [w'|]; [|reflexivity].
    exact (Hother w' (batch_support m') Hnot). }
  assert (Hself : monitor_registrations interval_of a m =
                  monitor_registrations interval_of a (mkMonitor (Some w) [] (batch_support m))).
  { unfold monitor_registrations. rewrite Hw. reflexivity. }
  split; [|split].
  - rewrite Hfilter, Hself; try (intros; reflexivity).
    + unfold monitor_registrations. simpl. rewrite !String.eqb_refl. simpl.
      destruct (batch_support m); reflexivity.
    + intros a' w' b Hother. unfold monitor_registrations. simpl.
      rewrite (other_pair_differs Hother). destruct b; reflexivity.
  - rewrite Hfilter, Hself; try (intros; reflexivity).
    + unfold monitor_registrations. simpl. rewrite !String.eqb_refl. simpl.
      destruct (batch_support m); reflexivity.
    + intros a' w' b Hother. unfold monitor_registrations. simpl.
      rewrite (other_pair_differs Hother). destruct b; reflexivity.
  - rewrite Hfilter, Hself; try (intros; reflexivity).
    + unfold monitor_registrations. simpl.
      destruct (batch_support m); simpl; rewrite ?String.eqb_refl; reflexivity.
    + intros a' w' b Hother. unfold monitor_registrations. simpl.
      destruct b; simpl; rewrite ?(other_pair_differs Hother); reflexivity.
Qed.

End Bootstrapper.

Lemma healthy_deployment_answers :
  bootstrap_answers Scenario.healthy Scenario.table Scenario.monitors_of
    Scenario.interval_of.
Proof. constructor; intros; reflexivity. Qed.

Lemma healthy_deployment_pairs_distinct :
  NoDup (scheduled_pairs Scenario.table Scenario.monitors_of).
Proof.
  change (NoDup [("prod", "iamrole"); ("prod", "s3")]).
  constructor; [|constructor; [|constructor]]; simpl; intuition discriminate.
Qed.

(** The healthy deployment: ["prod"] gets an immediate and a 900-second
    registration for both technologies, and the audit crontab for the roles
    only; the inactive and the third-party account get nothing. *)
Lemma bootstrap_registers_each_pair_witness :
  let evs := events (setup_the_tasks Scenario.healthy 0) in
  (filter (is_immediate "prod" "iamrole") evs =
     [Called (ApplyAsync TaskAccountTech ["prod"; "iamrole"])]
   /\ filter (is_periodic "prod" "iamrole") evs =
        [Called (AddPeriodicTask (Every 900) TaskAccountTech ["prod"; "iamrole"])]
   /\ filter (is_periodic_audit "prod" "iamrole") evs =
        [Called (AddPeriodicTask (Crontab "*" "10" "mon-fri") TaskAudit ["prod"; "iamrole"])])
  /\
  (filter (is_immediate "prod" "s3") evs =
     [Called (ApplyAsync TaskAccountTech ["prod"; "s3"])]
   /\ filter (is_periodic "prod" "s3") evs =
        [Called (AddPeriodicTask (Every 900) TaskAccountTech ["prod"; "s3"])]
   /\ filter (is_periodic_audit "prod" "s3") evs = []).
Proof.
  split.
  - exact (proj2 (@bootstrap_registers_each_pair nat Scenario.healthy Scenario.table
                    Scenario.monitors_of Scenario.interval_of healthy_deployment_answers
                    Scenario.prod Scenario.iamrole_monitor Scenario.iamrole_watcher 0
                    (or_introl eq_refl) eq_refl eq_refl (or_introl eq_refl) eq_refl
                    healthy_deployment_pairs_distinct)).
  - exact (proj2 (@bootstrap_registers_each_pair nat Scenario.healthy Scenario.table
                    Scenario.monitors_of Scenario.interval_of healthy_deployment_answers
                    Scenario.prod Scenario.s3_monitor Scenario.s3_watcher 0
                    (or_introl eq_refl) eq_refl eq_refl
                    (or_intror (or_intror (or_introl eq_refl))) eq_refl
                    healthy_deployment_pairs_distinct)).
Defined.

(** C1, as stated, fails in two ways.  The whole pass is one [try]: when the
    interval of the bucket watcher cannot be read, [setup_the_tasks] returns
    normally and the pair of the active, first-party account ["prod"] and its
    bucket monitor has neither an immediate nor a periodic registration.  And
    nothing removes duplicates: when the reporter lists the role monitor
    twice, the pair of ["prod"] and ["iamrole"] is dispatched twice and
    registered twice. *)
Lemma bootstrap_misses_or_repeats_a_pair :
  (let r := setup_the_tasks (Scenario.env Scenario.interval_unreadable []) 0 in
   In Scenario.prod Scenario.table
   /\ eligible Scenario.prod = true
   /\ In Scenario.s3_monitor (Scenario.monitors_of "prod")
   /\ watcher Scenario.s3_monitor = Some Scenario.s3_watcher
   /\ result r = Ret tt
   /\ filter (is_immediate "prod" "s3") (events r) = []
   /\ filter (is_periodic "prod" "s3") (events r) = [])
  /\
  (let r := setup_the_tasks Scenario.listed_twice 0 in
   result r = Ret tt
   /\ List.length (filter (is_immediate "prod" "iamrole") (events r)) = 2
   /\ List.length (filter (is_periodic "prod" "iamrole") (events r)) = 2).
Proof.
  split; cbv zeta.
  - split; [left; reflexivity|]. split; [reflexivity|].
    split; [right; right; left; reflexivity|]. repeat split; reflexivity.
  - repeat split; reflexivity.
Qed.

(** ** More on running the monad *)

Section MoreRuns.

Context {E : Type}.

Lemma none_of (p : event -> bool) evs :
  forallb (fun ev => negb (p ev)) evs = true -> existsb p evs = false.
Proof.
  induction evs as [|ev evs IH]; simpl; [reflexivity|].
  intros H. apply andb_true_iff in H. destruct H as [Hev Hevs].
  destruct (p ev); [discriminate | auto].
Qed.

Lemma none_filtered (p : event -> bool) evs :
  forallb (fun ev => negb (p ev)) evs = true -> filter p evs = [].
Proof.
  induction evs as [|ev evs IH]; simpl; [reflexivity|].
  intros H. apply andb_true_iff in H. destruct H as [Hev Hevs].
  destruct (p ev); [discriminate | auto].
Qed.

(** The first event that satisfies [p] comes after [x], when [x] follows a
    stretch without such events and is not one itself. *)
Lemma first_after (p : event -> bool) x quiet rest : forall pre ev post,
  quiet ++ x :: rest = pre ++ ev :: post ->
  forallb (fun ev => negb (p ev)) quiet = true ->
  p x = false ->
  p ev = true ->
  In x pre.
Proof.
  induction quiet as [|q quiet IH]; intros pre ev post Heq Hquiet Hx Hev; simpl in *.
  - destruct pre as [|y pre]; simpl in Heq; inversion Heq; subst.
    + congruence.
    + left. reflexivity.
  - apply andb_true_iff in Hquiet. destruct Hquiet as [Hq Hquiet].
    destruct pre as [|y pre]; simpl in Heq; inversion Heq; subst.
    + rewrite Hev in Hq. discriminate.
    + right. eapply IH; eauto.
Qed.

Lemma emits_when_false p (m : M E unit) : emits p (when false m).
Proof. apply emits_pure. Qed.

Lemma emits_for_each_In A p (f : A -> M E unit) xs :
  (forall x, In x xs -> emits p (f x)) -> emits p (for_each xs f).
Proof.
  induction xs as [|x xs IH]; intros Hf; simpl.
  - apply emits_pure.
  - apply emits_bind.
    + apply Hf. left. reflexivity.
    + intros _. apply IH. intros y Hy. apply Hf. right. exact Hy.
Qed.

(** What follows a call only has to be examined for the values the call can
    return. *)
Lemma emits_call_answered (env : Env E) B p c (f : answer c -> M E B) :
  p (Called c) = true ->
  (forall s v s1, oracle env c s = (Ret v, s1) -> emits p (f v)) ->
  emits p (bind (do_call env c) f).
Proof.
  intros Hc Hf s. unfold bind, do_call.
  destruct (oracle env c s) as [[v|e|] s1] eqn:Hcall; simpl; rewrite ?Hc; try reflexivity.
  specialize (Hf s v s1 Hcall s1). destruct (f v s1) as [[r s2] ev2].
  simpl in *. rewrite Hc, Hf. reflexivity.
Qed.

Lemma forallb_events_app (p : event -> bool) evs1 evs2 :
  forallb p evs1 = true -> forallb p evs2 = true -> forallb p (evs1 ++ evs2) = true.
Proof. intros H1 H2. rewrite forallb_app, H1, H2. reflexivity. Qed.

End MoreRuns.

(** A call emits its own event: what is left is the filter at that event. *)
Ltac emits_the_call :=
  lazymatch goal with
  | |- emits ?p (do_call ?env ?c) => apply (@emits_call _ env p c)
  end.

(** ** Scheduler bootstrapper: faults and what is never scheduled *)

Section BootstrapFaults.

Context {E : Type} (env : Env E).

Lemma setup_registers_nothing :
  emits (fun ev => negb (is_registration ev) && negb (is_store ev)) (setup env).
Proof. emits_module. Qed.

Lemma schedule_all_stores_nothing :
  emits (fun ev => negb (is_store ev)) (schedule_all env).
Proof. unfold schedule_all, schedule_account, schedule_monitor. emits_module. Qed.

Lemma schedule_account_leaves_janitor a :
  emits (fun ev => negb (is_janitor ev)) (schedule_account env a).
Proof. unfold schedule_account, schedule_monitor. emits_module. Qed.

Lemma bootstrap_fault_recorded_run e s :
  (capture env ;;
   emit (LogError msg_scheduler_exception []) ;;
   emit (LogError msg_traceback []) ;;
   emit (StoreException "scheduler" e)) s =
  (Ret tt, s, bootstrap_fault_recorded env e).
Proof.
  erewrite bind_Ret by apply capture_run.
  unfold bootstrap_fault_recorded, bind, emit, result, final, events. reflexivity.
Qed.

(** The pass once module discovery and the purge are done. *)
Lemma setup_the_tasks_after_purge s s0 ev0 s1 ev1 :
  setup env s = (Ret tt, s0, ev0) ->
  purge_it env s0 = (Ret tt, s1, ev1) ->
  setup_the_tasks env s =
    match schedule_all env s1 with
    | (Raise e, s2, ev2) => (Ret tt, s2, ev0 ++ ev1 ++ ev2 ++ bootstrap_fault_recorded env e)
    | (r, s2, ev2) => (r, s2, ev0 ++ ev1 ++ ev2)
    end.
Proof.
  intros Hsetup Hpurge. unfold setup_the_tasks.
  erewrite bind_Ret by exact Hsetup. erewrite bind_Ret by exact Hpurge.
  unfold try_except.
  destruct (schedule_all env s1) as [[[[]|e|] s2] ev2]; unfold result, final, events;
    simpl; try reflexivity.
  rewrite bootstrap_fault_recorded_run. reflexivity.
Qed.

Lemma pair_listed table monitors_of a m w :
  In a (filter eligible table) ->
  In m (monitors_of (name a)) ->
  watcher m = Some w ->
  pair_among (scheduled_pairs table monitors_of) [name a; index w] = true.
Proof.
  intros Ha Hm Hw. unfold pair_among. apply existsb_exists.
  exists (name a, index w). split.
  - unfold scheduled_pairs. apply in_flat_map. exists a. split; [exact Ha|].
    unfold account_pairs. apply in_flat_map. exists m. split; [exact Hm|].
    unfold monitor_pair. rewrite Hw. left. reflexivity.
  - simpl. rewrite !String.eqb_refl. reflexivity.
Qed.

(** X1.  Whatever the collaborators do, the bootstrapper hands to the Celery
    application only the two task executors, with the name of an account that
    is active and not third-party and the technology of one of that account's
    monitors that has a watcher, and the periodic [clear_expired_exceptions]:
    nothing is scheduled for an inactive or third-party account, or for a
    monitor without watcher. *)
Theorem bootstrap_schedules_only_listed_pairs table monitors_of :
  bootstrap_reads env table monitors_of ->
  emits (registers_within (scheduled_pairs table monitors_of)) (setup_the_tasks env).
Proof.
  intros Hreads. unfold setup_the_tasks.
  apply emits_bind; [emits_module | intros _].
  apply emits_bind; [emits_module | intros _].
  apply emits_try_except; [| intros e; emits_module].
  unfold schedule_all.
  apply emits_call_answered; [reflexivity|]. intros s rows s1 Hrows.
  rewrite (reads_accounts Hreads _ Hrows).
  apply emits_bind; [| intros _; emits_module].
  apply emits_for_each_In. intros a Ha. unfold schedule_account.
  apply emits_call_answered; [reflexivity|]. intros s2 ms s3 Hms.
  rewrite (reads_monitors Hreads _ Hms).
  apply emits_for_each_In. intros m Hm. unfold schedule_monitor.
  destruct (watcher m) as [w|] eqn:Hw; [|apply emits_pure].
  pose proof (pair_listed table monitors_of a m Ha Hm Hw) as Hpair.
  apply emits_bind; [emits_the_call; reflexivity | intros minutes].
  apply emits_bind; [emits_the_call; exact Hpair | intros _].
  apply emits_bind; [emits_the_call; exact Hpair | intros _].
  apply emits_when. emits_the_call. exact Hpair.
Qed.

(** X2.  The bootstrapper purges the queue before it hands anything to the
    Celery application: in every run, whatever fails, an immediate dispatch or
    a periodic registration comes after the purge. *)
Theorem purge_precedes_every_registration s pre ev post :
  events (setup_the_tasks env s) = pre ++ ev :: post ->
  is_registration ev = true ->
  In (Called Purge) pre.
Proof.
  intros Heq Hev.
  pose proof (setup_registers_nothing s) as Hquiet.
  assert (Hno : forallb (fun ev => negb (is_registration ev)) (events (setup env s)) = true).
  { revert Hquiet. induction (events (setup env s)) as [|x xs IH]; simpl; [reflexivity|].
    intros H. apply andb_true_iff in H. destruct H as [Hx Hxs].
    apply andb_true_iff in Hx. destruct Hx as [Hx _]. rewrite Hx. simpl. auto. }
  clear Hquiet. revert Heq. unfold setup_the_tasks, bind at 1.
  destruct (setup env s) as [[[[]|e|] s0] ev0]; unfold events in *; simpl in *.
  - unfold bind at 1, purge_it, do_call.
    destruct (oracle env Purge s0) as [[[]|e|] s1]; simpl.
    + destruct (try_except _ _ s1) as [[r s2] ev2]. simpl. intros Heq.
      eapply first_after with (p := is_registration); eauto.
    + intros Heq. eapply first_after with (p := is_registration); eauto.
    + intros Heq. eapply first_after with (p := is_registration); eauto.
  - intros Heq. exfalso. rewrite Heq in Hno. rewrite forallb_app in Hno.
    apply andb_true_iff in Hno. destruct Hno as [_ Hno]. simpl in Hno.
    rewrite Hev in Hno. discriminate.
  - intros Heq. exfalso. rewrite Heq in Hno. rewrite forallb_app in Hno.
    apply andb_true_iff in Hno. destruct Hno as [_ Hno]. simpl in Hno.
    rewrite Hev in Hno. discriminate.
Qed.

(** X3.  An exception raised anywhere in the scheduling block of
    [setup_the_tasks] does not leave the function: the bootstrapper returns
    normally, having captured the exception and stored exactly one
    ExceptionRecord, with source ["scheduler"]. *)
Theorem scheduling_fault_is_recorded_not_raised s s0 ev0 s1 ev1 e s2 ev2 :
  setup env s = (Ret tt, s0, ev0) ->
  purge_it env s0 = (Ret tt, s1, ev1) ->
  schedule_all env s1 = (Raise e, s2, ev2) ->
  setup_the_tasks env s =
    (Ret tt, s2, ev0 ++ ev1 ++ ev2 ++ bootstrap_fault_recorded env e)
  /\ filter is_store (events (setup_the_tasks env s)) = [StoreException "scheduler" e].
Proof.
  intros Hsetup Hpurge Hall.
  assert (Hrun : setup_the_tasks env s =
                 (Ret tt, s2, ev0 ++ ev1 ++ ev2 ++ bootstrap_fault_recorded env e)).
  { rewrite (setup_the_tasks_after_purge _ Hsetup Hpurge), Hall. reflexivity. }
  split; [exact Hrun|]. rewrite Hrun. unfold events. simpl.
  pose proof (setup_registers_nothing s) as H0. rewrite Hsetup in H0.
  pose proof (schedule_all_stores_nothing s1) as H2. rewrite Hall in H2.
  unfold events in *. simpl in *.
  assert (H0' : filter is_store ev0 = []).
  { apply none_filtered. clear -H0. induction ev0 as [|x xs IH]; simpl in *; [reflexivity|].
    apply andb_true_iff in H0. destruct H0 as [Hx Hxs].
    apply andb_true_iff in Hx. destruct Hx as [_ Hx]. rewrite Hx. simpl. auto. }
  assert (H1' : filter is_store ev1 = []).
  { unfold purge_it, do_call in Hpurge. destruct (oracle env Purge s0) as [r1 s1'].
    inversion Hpurge. reflexivity. }
  rewrite !filter_app, H0', H1', (none_filtered _ _ H2). simpl.
  unfold bootstrap_fault_recorded, captured. destruct (sentry env); reflexivity.
Qed.

(** X4.  The accounts are scheduled one after the other inside one [try]:
    when scheduling an account raises, the accounts after it are not
    scheduled, and neither is the periodic [clear_expired_exceptions], which
    is registered last. *)
Theorem account_fault_leaves_the_rest_unscheduled
    s s0 ev0 s1 ev1 rows s2 pre a post s3 ev3 e s4 ev4 :
  setup env s = (Ret tt, s0, ev0) ->
  purge_it env s0 = (Ret tt, s1, ev1) ->
  oracle env AccountQueryAll s1 = (Ret rows, s2) ->
  filter eligible rows = pre ++ a :: post ->
  for_each pre (schedule_account env) s2 = (Ret tt, s3, ev3) ->
  schedule_account env a s3 = (Raise e, s4, ev4) ->
  setup_the_tasks env s =
    (Ret tt, s4,
     ev0 ++ ev1 ++ (Called AccountQueryAll :: ev3 ++ ev4) ++ bootstrap_fault_recorded env e)
  /\ existsb is_janitor (events (setup_the_tasks env s)) = false.
Proof.
  intros Hsetup Hpurge Hrows Hsplit Hpre Ha.
  assert (Hall : schedule_all env s1 = (Raise e, s4, Called AccountQueryAll :: ev3 ++ ev4)).
  { unfold schedule_all.
    erewrite bind_Ret by (exact (@do_call_Ret _ _ _ _ _ _ Hrows)).
    rewrite Hsplit.
    erewrite bind_Raise by (eapply for_each_stops_at_fault; eauto).
    reflexivity. }
  assert (Hrun : setup_the_tasks env s =
    (Ret tt, s4,
     ev0 ++ ev1 ++ (Called AccountQueryAll :: ev3 ++ ev4) ++ bootstrap_fault_recorded env e)).
  { rewrite (setup_the_tasks_after_purge _ Hsetup Hpurge), Hall. reflexivity. }
  split; [exact Hrun|]. rewrite Hrun. unfold events. simpl.
  apply none_of.
  assert (H0 : emits (fun ev => negb (is_janitor ev)) (setup env)) by emits_module.
  specialize (H0 s). rewrite Hsetup in H0.
  assert (H1 : emits (fun ev => negb (is_janitor ev)) (purge_it env)) by emits_module.
  specialize (H1 s0). rewrite Hpurge in H1.
  assert (H3 : emits (fun ev => negb (is_janitor ev)) (for_each pre (schedule_account env))).
  { apply emits_for_each. intros x. apply schedule_account_leaves_janitor. }
  specialize (H3 s2). rewrite Hpre in H3.
  pose proof (schedule_account_leaves_janitor a s3) as H4. rewrite Ha in H4.
  unfold events in *. simpl in *.
  rewrite !forallb_app. simpl. rewrite !forallb_app, H0, H1, H3, H4.
  unfold bootstrap_fault_recorded, captured. destruct (sentry env); reflexivity.
Qed.

(** X5.  Module discovery and the purge are outside the [try] of
    [setup_the_tasks]: an exception raised by either leaves the function as
    it is, nothing is stored and nothing is handed to the Celery
    application. *)
Theorem fault_before_scheduling_propagates s :
  (forall e s0 ev0,
      setup env s = (Raise e, s0, ev0) ->
      setup_the_tasks env s = (Raise e, s0, ev0)
      /\ existsb is_store ev0 = false /\ existsb is_registration ev0 = false)
  /\
  (forall s0 ev0 e s1 ev1,
      setup env s = (Ret tt, s0, ev0) ->
      purge_it env s0 = (Raise e, s1, ev1) ->
      setup_the_tasks env s = (Raise e, s1, ev0 ++ ev1)
      /\ existsb is_store (ev0 ++ ev1) = false
      /\ existsb is_registration (ev0 ++ ev1) = false).
Proof.
  assert (Hs : emits (fun ev => negb (is_store ev)) (setup env)) by emits_module.
  assert (Hr : emits (fun ev => negb (is_registration ev)) (setup env)) by emits_module.
  specialize (Hs s). specialize (Hr s).
  split.
  - intros e s0 ev0 Hsetup. rewrite Hsetup in Hs, Hr. unfold events in *. simpl in *.
    split; [|split].
    + unfold setup_the_tasks. erewrite bind_Raise by exact Hsetup. reflexivity.
    + apply none_of. exact Hs.
    + apply none_of. exact Hr.
  - intros s0 ev0 e s1 ev1 Hsetup Hpurge. rewrite Hsetup in Hs, Hr.
    unfold events in *. simpl in *.
    assert (Hev1 : ev1 = [Called Purge]).
    { unfold purge_it, do_call in Hpurge. destruct (oracle env Purge s0) as [r1 s1'].
      inversion Hpurge. reflexivity. }
    split; [|split].
    + unfold setup_the_tasks. erewrite bind_Ret by exact Hsetup.
      erewrite bind_Raise by exact Hpurge. reflexivity.
    + apply none_of. apply forallb_events_app; [exact Hs | subst; reflexivity].
    + apply none_of. apply forallb_events_app; [exact Hr | subst; reflexivity].
Qed.

End BootstrapFaults.

Lemma healthy_deployment_reads :
  bootstrap_reads Scenario.healthy Scenario.table Scenario.monitors_of.
Proof.
  split.
  - intros s rows s1 H. simpl in H. inversion H. reflexivity.
  - intros a s ms s1 H. simpl in H. inversion H. reflexivity.
Qed.

(** The healthy deployment: every registration of the pass is for ["prod"]
    with ["iamrole"] or ["s3"], or is the janitor. *)
Lemma bootstrap_schedules_only_listed_pairs_witness :
  Scenario.scheduled_pairs_of_deployment = [("prod", "iamrole"); ("prod", "s3")]
  /\ forallb (registers_within Scenario.scheduled_pairs_of_deployment)
       (events (setup_the_tasks Scenario.healthy 0)) = true.
Proof.
  split; [reflexivity|].
  exact (bootstrap_schedules_only_listed_pairs healthy_deployment_reads 0).
Defined.

(** The healthy deployment: the first dispatch is the eighth event of the
    pass, and the purge is among the seven before it. *)
Lemma purge_precedes_every_registration_witness :
  In (Called Purge) (firstn 7 (events (setup_the_tasks Scenario.healthy 0))).
Proof.
  apply (@purge_precedes_every_registration nat Scenario.healthy 0
           (firstn 7 (events (setup_the_tasks Scenario.healthy 0)))
           (Called (ApplyAsync TaskAccountTech ["prod"; "iamrole"]))
           (skipn 8 (events (setup_the_tasks Scenario.healthy 0)))).
  - reflexivity.
  - reflexivity.
Defined.

(** The account table cannot be read: the bootstrapper returns, with one
    record. *)
Lemma scheduling_fault_is_recorded_not_raised_witness :
  let r := setup_the_tasks (Scenario.env Scenario.accounts_unreadable []) 0 in
  result r = Ret tt
  /\ filter is_store (events r) = [StoreException "scheduler" OperationalError].
Proof.
  cbv zeta.
  destruct (@scheduling_fault_is_recorded_not_raised nat
              (Scenario.env Scenario.accounts_unreadable []) 0 _ _ _ _ _ _ _
              eq_refl eq_refl eq_refl) as [Hrun Hstore].
  split; [rewrite Hrun; reflexivity | exact Hstore].
Defined.

(** The interval of the bucket watcher cannot be read: the roles of ["prod"]
    were scheduled, the janitor is not. *)
Lemma account_fault_leaves_the_rest_unscheduled_witness :
  let r := setup_the_tasks (Scenario.env Scenario.interval_unreadable []) 0 in
  existsb is_janitor (events r) = false
  /\ existsb (is_immediate "prod" "iamrole") (events r) = true.
Proof.
  cbv zeta. split.
  - exact (proj2 (@account_fault_leaves_the_rest_unscheduled nat
             (Scenario.env Scenario.interval_unreadable []) 0 _ _ _ _ _ _
             [] Scenario.prod [] _ _ _ _ _
             eq_refl eq_refl eq_refl eq_refl eq_refl eq_refl)).
  - reflexivity.
Defined.

(** A plugin that fails to import, and a broker that is down at the purge. *)
Lemma fault_before_scheduling_propagates_witness :
  result (setup_the_tasks (Scenario.env Scenario.plugin_broken []) 0) =
    Raise (OtherError "ImportError")
  /\ result (setup_the_tasks (Scenario.env Scenario.broker_down []) 0) =
       Raise (OtherError "ConnectionError").
Proof.
  split.
  - rewrite (proj1 (proj1 (@fault_before_scheduling_propagates nat
               (Scenario.env Scenario.plugin_broken []) 0) _ _ _ eq_refl)).
    reflexivity.
  - rewrite (proj1 (proj2 (@fault_before_scheduling_propagates nat
               (Scenario.env Scenario.broker_down []) 0) _ _ _ _ _ eq_refl eq_refl)).
    reflexivity.
Defined.

(** ** Batch consumer: when deletions are reconciled *)

Section BatchSafety.

Context {E : Type} (env : Env E).

(** The loop is left normally only with [done_slurping] set. *)
Lemma batch_loop_exit_done monitor cw debug fuel : forall s s2 evs,
  batch_loop env fuel monitor cw debug s = (Ret tt, s2, evs) ->
  done_slurping env cw s2 = true.
Proof.
  induction fuel as [|fuel IH]; intros s s2 evs H; simpl in H.
  - discriminate.
  - destruct (done_slurping env cw s) eqn:Hdone.
    + inversion H; subst. exact Hdone.
    + unfold bind in H.
      destruct (batch_page env monitor cw debug s) as [[[[]|e|] s1] ev1]; try discriminate.
      destruct (batch_loop env fuel monitor cw debug s1) as [[r s3] ev2] eqn:Hrest.
      inversion H; subst. eapply IH. exact Hrest.
Qed.

Lemma batch_loop_never_reconciles fuel monitor cw debug :
  emits (fun ev => negb (is_reconcile ev)) (batch_loop env fuel monitor cw debug).
Proof. apply emits_batch_loop. apply batch_page_never_reconciles. Qed.

(** The runs of [batch_logic], by what the first fetch and the loop do. *)
Lemma batch_logic_run fuel monitor cw account debug s :
  batch_logic env fuel monitor cw account debug s =
    match oracle env (SlurpList cw) s with
    | (Ret (_, (loc, _) :: _), s1) =>
        (Ret tt, s1,
         [Called (SlurpList cw);
          LogError msg_nothing_fetched [i_am_plural cw; account; region_of loc]])
    | (Ret (_, []), s1) =>
        match batch_loop env fuel monitor cw debug s1 with
        | (Ret _, s2, evs) =>
            (fst (oracle env (FindDeletedBatch cw account) s2),
             snd (oracle env (FindDeletedBatch cw account) s2),
             Called (SlurpList cw) :: evs ++ [Called (FindDeletedBatch cw account)])
        | (Raise e, s2, evs) => (Raise e, s2, Called (SlurpList cw) :: evs)
        | (Diverge, s2, evs) => (Diverge, s2, Called (SlurpList cw) :: evs)
        end
    | (Raise e, s1) => (Raise e, s1, [Called (SlurpList cw)])
    | (Diverge, s1) => (Diverge, s1, [Called (SlurpList cw)])
    end.
Proof.
  unfold batch_logic, bind at 1, do_call at 1.
  destruct (oracle env (SlurpList cw) s) as [[[items [|[loc e] rest]]|e|] s1];
    try reflexivity.
  unfold bind, do_call.
  destruct (batch_loop env fuel monitor cw debug s1) as [[[[]|e|] s2] evs]; try reflexivity.
  destruct (oracle env (FindDeletedBatch cw account) s2) as [r s3]. reflexivity.
Qed.

(** X6.  In every run of [batch_logic], whatever the watcher and the auditors
    do and whether or not the run comes to an end, the deletion
    reconciliation is called at most once. *)
Theorem batch_logic_reconciles_at_most_once fuel monitor cw account debug s :
  List.length
    (filter is_reconcile (events (batch_logic env fuel monitor cw account debug s))) <= 1.
Proof.
  rewrite batch_logic_run.
  destruct (oracle env (SlurpList cw) s) as [[[items [|[loc e] rest]]|e|] s1];
    unfold events; simpl; try lia.
  pose proof (batch_loop_never_reconciles fuel monitor cw debug s1) as Hloop.
  destruct (batch_loop env fuel monitor cw debug s1) as [[[[]|e|] s2] evs];
    unfold events in *; simpl in *;
    rewrite ?filter_app, (none_filtered _ _ Hloop); simpl; lia.
Qed.

(** X7.  Deletions are reconciled only after a complete fetch: when a run of
    [batch_logic] calls [find_deleted_batch], the first fetch had returned an
    empty exception map, every page of the loop had returned normally, and
    the call is made in a state in which the watcher reports
    [done_slurping]; it is the last event of the run. *)
Theorem reconciliation_only_after_done_slurping fuel monitor cw account debug s :
  existsb is_reconcile (events (batch_logic env fuel monitor cw account debug s)) = true ->
  exists items s1 s2 evs,
    oracle env (SlurpList cw) s = (Ret (items, []), s1)
    /\ batch_loop env fuel monitor cw debug s1 = (Ret tt, s2, evs)
    /\ done_slurping env cw s2 = true
    /\ events (batch_logic env fuel monitor cw account debug s) =
         Called (SlurpList cw) :: evs ++ [Called (FindDeletedBatch cw account)].
Proof.
  rewrite batch_logic_run.
  destruct (oracle env (SlurpList cw) s) as [[[items [|[loc e] rest]]|e|] s1];
    unfold events; simpl; try discriminate.
  pose proof (batch_loop_never_reconciles fuel monitor cw debug s1) as Hloop.
  destruct (batch_loop env fuel monitor cw debug s1) as [[[[]|e|] s2] evs] eqn:Hrun;
    unfold events in *; simpl in *.
  - intros _. exists items, s1, s2, evs.
    split; [reflexivity|]. split; [exact Hrun|].
    split; [eapply batch_loop_exit_done; exact Hrun | reflexivity].
  - rewrite (none_of _ _ Hloop). discriminate.
  - rewrite (none_of _ _ Hloop). discriminate.
Qed.




(** X9.  When the handler for storage faults of [_audit_specific_changes]
    runs for a monitor whose watcher has no account, it fails itself: its log
    line reads [monitor.watcher.accounts[0]].  The invocation ends in
    [IndexError], the session is not removed and no ExceptionRecord is
    stored. *)
Theorem storage_fault_unhandled_without_accounts
    monitor w items send_report debug s e s1 ev1 :
  watcher monitor = Some w ->
  accounts w = [] ->
  for_each (auditors monitor) (audit_specific_one env monitor items send_report) s =
    (Raise e, s1, ev1) ->
  is_db_error e = true ->
  _audit_specific_changes env monitor items send_report debug s = (Raise IndexError, s1, ev1)
  /\ existsb is_store ev1 = false
  /\ existsb is_release ev1 = false.
Proof.
  intros Hw Hacc Hloop Hdb. split; [|split].
  - unfold _audit_specific_changes, try_except_db.
    erewrite try_except_Raise by exact Hloop. rewrite Hdb.
    unfold first_account, watcher_accounts. rewrite Hw. unfold bind, pure. simpl.
    rewrite Hacc. unfold raise, result, final, events. simpl. rewrite app_nil_r. reflexivity.
  - apply none_of.
    assert (H : emits (fun ev => negb (is_store ev))
                  (for_each (auditors monitor)
                     (audit_specific_one env monitor items send_report)))
      by emits_module.
    specialize (H s). rewrite Hloop in H. exact H.
  - apply none_of.
    assert (H : emits (fun ev => negb (is_release ev))
                  (for_each (auditors monitor)
                     (audit_specific_one env monitor items send_report)))
      by emits_module.
    specialize (H s). rewrite Hloop in H. exact H.
Qed.

End BatchSafety.

(** The healthy deployment: the loop over the three pages of ["s3"] is left
    with [done_slurping] set, and only then are deletions reconciled. *)
Lemma reconciliation_only_after_done_slurping_witness :
  exists s2 evs,
    batch_loop Scenario.healthy 4 Scenario.s3_monitor Scenario.s3_watcher true 0 =
      (Ret tt, s2, evs)
    /\ done_slurping Scenario.healthy Scenario.s3_watcher s2 = true.
Proof.
  destruct (@reconciliation_only_after_done_slurping nat Scenario.healthy 4
              Scenario.s3_monitor Scenario.s3_watcher "prod" true 0 eq_refl)
    as (items & s1 & s2 & evs & Hfirst & Hloop & Hdone & _).
  simpl in Hfirst. inversion Hfirst; subst.
  exists s2, evs. split; assumption.
Defined.


(** A dropped connection while the first auditor evaluates its rules, for a
    watcher built without accounts. *)
Lemma storage_fault_unhandled_without_accounts_witness :
  _audit_specific_changes (Scenario.env Scenario.storage_down_on_audit [])
    Scenario.orphan_monitor (Scenario.page 0) false true 0 =
  (Raise IndexError, 0, [Called (AuditObjects Scenario.s3_auditor (Scenario.page 0))]).
Proof.
  exact (proj1 (@storage_fault_unhandled_without_accounts nat
           (Scenario.env Scenario.storage_down_on_audit [])
           Scenario.orphan_monitor Scenario.orphan_watcher (Scenario.page 0) false true
           0 OperationalError 0 _ eq_refl eq_refl eq_refl eq_refl)).
Defined.

(** Decompose [emits p m] for any entry point [m] of the module; [tac] closes
    or rewrites the goals that depend on more than the shape of [m]. *)
Ltac emits_entry tac :=
  repeat first
    [ tac
    | emits_step
    | lazymatch goal with
      | |- emits _ (batch_loop _ _ _ _ _) => apply emits_batch_loop
      end
    | progress unfold find_changes, watch_monitor, batch_logic, batch_page,
        audit_changes, audit_monitor, _audit_changes, _audit_specific_changes,
        audit_one, audit_specific_one, first_account, watcher_accounts,
        reporter_logic, watch_audit_alert, setup, purge_it, capture,
        task_account_tech, task_audit, retry, clear_expired_exceptions,
        manual_run_change_reporter, report_monitor, manual_run_change_finder,
        setup_the_tasks, schedule_all, schedule_account, schedule_monitor ].

(** ** Watching, auditing and alerting *)

Section WatchAndAlert.

Context {E : Type} (env : Env E).

(** X10.  Only storage faults are handled by the audit orchestrator: when the
    auditors of a monitor raise any other exception, wherever the monitor
    stands in the sweep, the exception leaves [_audit_changes] and ends
    [audit_changes] there; the session is not removed, nothing is stored, and
    neither the remaining monitors of the account nor the remaining accounts
    are audited. *)
Theorem non_storage_fault_aborts_the_sweep
    before account after names send_report debug skip_batch
    s00 s0 evb done monitor rest s1 s ev0 w e s2 ev1 :
  audit_changes env before names send_report debug skip_batch s00 = (Ret tt, s0, evb) ->
  oracle env (GetMonitorsAndDependencies account names debug) s0 =
    (Ret (done ++ monitor :: rest), s1) ->
  for_each done (audit_monitor env account send_report debug skip_batch) s1 =
    (Ret tt, s, ev0) ->
  watcher monitor = Some w ->
  batch_support monitor && skip_batch = false ->
  for_each (auditors monitor) (audit_one env account send_report) s = (Raise e, s2, ev1) ->
  is_db_error e = false ->
  audit_changes env (before ++ account :: after) names send_report debug skip_batch s00 =
    (Raise e, s2,
     evb ++ Called (GetMonitorsAndDependencies account names debug) :: ev0 ++ ev1)
  /\ existsb is_store ev1 = false
  /\ existsb is_release ev1 = false.
Proof.
  intros Hbefore Hdeps Hdone Hw Hskip Hloop Hdb.
  assert (Hm : audit_monitor env account send_report debug skip_batch monitor s =
               (Raise e, s2, ev1)).
  { unfold audit_monitor. rewrite Hskip, Hw.
    unfold _audit_changes, try_except_db.
    erewrite try_except_Raise by exact Hloop. rewrite Hdb.
    unfold raise, result, final, events. simpl. rewrite app_nil_r. reflexivity. }
  split; [|split].
  - rewrite (@audit_changes_at _ env before account after names send_report debug
               skip_batch s00 s0 evb (done ++ monitor :: rest) s1 Hbefore Hdeps).
    cbv zeta.
    rewrite (@for_each_at _ _ _ _ done monitor rest _ s1 s ev0 Hdone). cbv zeta.
    erewrite bind_Raise by exact Hm. reflexivity.
  - apply none_of.
    pose proof (auditors_store_nothing env account send_report (auditors monitor) s) as H.
    rewrite Hloop in H. exact H.
  - apply none_of.
    assert (H : emits (fun ev => negb (is_release ev))
                  (for_each (auditors monitor) (audit_one env account send_report)))
      by emits_module.
    specialize (H s). rewrite Hloop in H. exact H.
Qed.

(** X11.  An execution of [task_account_tech] never creates or mails an audit
    report: both the audit of the pages of a batch watcher and the sweep that
    follows the watch are made with [send_report] unset, and the handlers
    send none. *)
Theorem watch_task_sends_no_report fuel k a t :
  emits (fun ev => negb (is_report ev)) (task_account_tech env fuel k a t).
Proof. emits_entry ltac:(apply emits_when_false). Qed.

(** X12.  The optional collaborators are not touched when they are not
    configured: without [jirasync] neither task synchronises issues, and
    without [sentry] neither task nor the bootstrapper captures an
    exception. *)
Theorem absent_collaborators_are_not_called fuel k a t :
  (jirasync env = false ->
     emits (fun ev => negb (is_sync ev)) (task_account_tech env fuel k a t)
     /\ emits (fun ev => negb (is_sync ev)) (task_audit env k a t))
  /\
  (sentry env = false ->
     emits (fun ev => negb (is_capture ev)) (task_account_tech env fuel k a t)
     /\ emits (fun ev => negb (is_capture ev)) (task_audit env k a t)
     /\ emits (fun ev => negb (is_capture ev)) (setup_the_tasks env)).
Proof.
  split.
  - intros Hj. split; emits_entry ltac:(rewrite Hj; apply emits_when_false).
  - intros Hs. repeat split; emits_entry ltac:(rewrite Hs; apply emits_when_false).
Qed.

Lemma find_changes_never_alerts fuel a t d :
  emits (fun ev => negb (is_alert ev)) (find_changes env fuel a t d).
Proof. emits_module. Qed.

(** X13.  [reporter_logic] asks the alerter to report once, with the monitors
    [find_changes] returned, after everything [find_changes] did; when
    [find_changes] ends in an exception, the alerter is not asked at all. *)
Theorem alert_follows_a_completed_watch fuel a t s :
  (forall ms s1 ev1,
      find_changes env fuel a t default_debug s = (Ret ms, s1, ev1) ->
      exists rest,
        events (reporter_logic env fuel a t s) =
          ev1 ++ Called (AlerterReport ms a) :: rest
        /\ existsb is_alert ev1 = false
        /\ existsb is_alert rest = false)
  /\
  (forall e s1 ev1,
      find_changes env fuel a t default_debug s = (Raise e, s1, ev1) ->
      existsb is_alert (events (reporter_logic env fuel a t s)) = false).
Proof.
  pose proof (find_changes_never_alerts fuel a t default_debug s) as Hquiet.
  split.
  - intros ms s1 ev1 Hfc. rewrite Hfc in Hquiet. unfold events in Hquiet. simpl in Hquiet.
    unfold reporter_logic, try_except_db, try_except, watch_audit_alert, bind.
    rewrite Hfc. unfold do_call.
    destruct (oracle env (AlerterReport ms a) s1) as [[[]|e|] s2]; unfold events; simpl.
    + exists []. repeat split; [apply none_of; exact Hquiet].
    + destruct (is_db_error e); simpl.
      * exists (watch_fault_handled a t e). rewrite <- app_assoc. simpl.
        repeat split; [apply none_of; exact Hquiet].
      * exists []. rewrite app_nil_r.
        repeat split; [apply none_of; exact Hquiet].
    + exists []. repeat split; [apply none_of; exact Hquiet].
  - intros e s1 ev1 Hfc. rewrite Hfc in Hquiet. unfold events in Hquiet. simpl in Hquiet.
    unfold reporter_logic, try_except_db, try_except, watch_audit_alert, bind.
    rewrite Hfc. destruct (is_db_error e); unfold events; simpl.
    + rewrite existsb_app, (none_of _ _ Hquiet). reflexivity.
    + rewrite app_nil_r. apply none_of. exact Hquiet.
Qed.

(** X14.  An exception of the watch, audit and alert that is not a storage
    fault passes through [reporter_logic] untouched, and is recorded once in
    the execution of [task_account_tech], by the task's own handler, with
    source ["scheduler-exception-on-watch"]; the session is not removed. *)
Theorem non_storage_fault_is_recorded_once fuel k a t s s0 ev0 e s1 ev1 :
  setup env s = (Ret tt, s0, ev0) ->
  watch_audit_alert env fuel a t s0 = (Raise e, s1, ev1) ->
  is_db_error e = false ->
  let handled :=
    task_fault_recorded env msg_watch_exception "scheduler-exception-on-watch" a t e ++
    retry_sends TaskAccountTech [a; t] k in
  reporter_logic env fuel a t s0 = (Raise e, s1, ev1)
  /\ task_account_tech env fuel k a t s = (Raise (retry_raises k e), s1, ev0 ++ ev1 ++ handled)
  /\ filter is_store handled = [StoreException "scheduler-exception-on-watch" e]
  /\ filter is_release handled = [].
Proof.
  intros Hsetup Hbody Hdb handled.
  assert (Hrep : reporter_logic env fuel a t s0 = (Raise e, s1, ev1)).
  { unfold reporter_logic, try_except_db.
    erewrite try_except_Raise by exact Hbody. rewrite Hdb.
    unfold raise, result, final, events. simpl. rewrite app_nil_r. reflexivity. }
  split; [exact Hrep|]. split; [|split].
  - exact (@task_account_tech_fault _ env fuel k a t s s0 ev0 e s1 ev1 Hsetup Hrep).
  - unfold handled, task_fault_recorded, captured, retry_sends.
    destruct (sentry env), (max_retries <? S k)%nat; reflexivity.
  - unfold handled, task_fault_recorded, captured, retry_sends.
    destruct (sentry env), (max_retries <? S k)%nat; reflexivity.
Qed.

(** X15.  A batch technology whose first fetch failed in every scope does not
    stop [find_changes]: [batch_logic] returns after its log line, and
    [find_changes] goes on with the audit sweep, closes the session and
    returns the monitor, as after a complete fetch. *)
Theorem unfetchable_batch_does_not_stop_find_changes
    fuel a t d s mon cw s1 items loc e rest s2 :
  oracle env (GetMonitors a [t] d) s = (Ret [mon], s1) ->
  watcher mon = Some cw ->
  batch_support mon = true ->
  oracle env (SlurpList cw) s1 = (Ret (items, (loc, e) :: rest), s2) ->
  find_changes env fuel a t d s =
    (let sweep := audit_changes env [a] [t] false d true s2 in
     let evs :=
       Called (GetMonitors a [t] d)
       :: [Called (SlurpList cw);
           LogError msg_nothing_fetched [i_am_plural cw; a; region_of loc]]
       ++ events sweep in
     match result sweep with
     | Ret _ => (Ret [mon], final sweep, evs ++ [SessionClose])
     | Raise e' => (Raise e', final sweep, evs)
     | Diverge => (Diverge, final sweep, evs)
     end).
Proof.
  intros Hms Hw Hb Hfirst.
  apply (@find_changes_after_watch _ env fuel a t d s [mon] s1 s2 _ Hms).
  simpl. unfold watch_monitor. rewrite Hw, Hb.
  erewrite bind_Ret by (rewrite batch_logic_run, Hfirst; reflexivity).
  reflexivity.
Qed.

End WatchAndAlert.

(** A rule of the ["policy"] auditor is broken, in a sweep for two accounts
    over the buckets and the roles, batch monitors included: the buckets of
    the first account are audited, the sweep ends at its roles, and the
    registry is not asked for the second account. *)
Lemma non_storage_fault_aborts_the_sweep_witness :
  let r := audit_changes (Scenario.env Scenario.policy_rule_broken [])
             ["prod"; "vendor"] ["s3"] false true false 0 in
  result r = Raise (OtherError "KeyError")
  /\ existsb is_store (events r) = false
  /\ existsb (is_audit_of "s3") (events r) = true
  /\ existsb (is_audit_of "trust") (events r) = false
  /\ existsb
       (fun ev =>
          match ev with
          | Called (GetMonitorsAndDependencies a _ _) => (a =? "vendor")%string
          | _ => false
          end) (events r) = false.
Proof.
  cbv zeta.
  pose proof (proj1 (@non_storage_fault_aborts_the_sweep nat
             (Scenario.env Scenario.policy_rule_broken []) [] "prod" ["vendor"] ["s3"]
             false true false 0 _ _ [Scenario.s3_monitor] Scenario.iamrole_monitor [] _ _ _
             Scenario.iamrole_watcher (OtherError "KeyError") _ _
             eq_refl eq_refl eq_refl eq_refl eq_refl eq_refl eq_refl)) as Hrun.
  change ([] ++ ["prod"; "vendor"]) with ["prod"; "vendor"] in Hrun. rewrite Hrun.
  repeat split; reflexivity.
Defined.

(** The deployment without Sentry and Jira, watching the roles. *)
Lemma absent_collaborators_are_not_called_witness :
  forallb (fun ev => negb (is_sync ev))
    (events (task_account_tech Scenario.plain 4 0 "prod" "iamrole" 0)) = true
  /\ forallb (fun ev => negb (is_capture ev))
       (events (setup_the_tasks Scenario.plain 0)) = true.
Proof.
  split.
  - exact (proj1 (proj1 (@absent_collaborators_are_not_called nat Scenario.plain
             4 0 "prod" "iamrole") eq_refl) 0).
  - exact (proj2 (proj2 (proj2 (@absent_collaborators_are_not_called nat Scenario.plain
             4 0 "prod" "iamrole") eq_refl)) 0).
Defined.

(** The healthy deployment, watching the roles: the alerter is asked once,
    after the watch and the audit. *)
Lemma alert_follows_a_completed_watch_witness :
  exists rest,
    events (reporter_logic Scenario.healthy 4 "prod" "iamrole" 0) =
      events (find_changes Scenario.healthy 4 "prod" "iamrole" true 0)
      ++ Called (AlerterReport [Scenario.iamrole_monitor] "prod") :: rest
    /\ existsb is_alert (events (find_changes Scenario.healthy 4 "prod" "iamrole" true 0))
       = false
    /\ existsb is_alert rest = false.
Proof.
  exact (proj1 (@alert_follows_a_completed_watch nat Scenario.healthy 4
                  "prod" "iamrole" 0) _ _ _ eq_refl).
Defined.

(** A snapshot fetch that fails with a client error: one record. *)
Lemma non_storage_fault_is_recorded_once_witness :
  filter is_store
    (events (task_account_tech (Scenario.env Scenario.fetch_fails []) 4 0
               "prod" "iamrole" 0)) =
    [StoreException "scheduler-exception-on-watch" (OtherError "ClientError")].
Proof.
  rewrite (proj1 (proj2 (@non_storage_fault_is_recorded_once nat
                    (Scenario.env Scenario.fetch_fails []) 4 0
                    "prod" "iamrole" 0 _ _ (OtherError "ClientError") _ _
                    eq_refl eq_refl eq_refl))).
  reflexivity.
Defined.

(** Every scope of the first fetch of the buckets failed: the roles, which
    depend on them, are audited all the same and the session is closed. *)
Lemma unfetchable_batch_does_not_stop_find_changes_witness :
  let r := find_changes Scenario.unfetchable 4 "prod" "s3" true 0 in
  result r = Ret [Scenario.s3_monitor]
  /\ existsb (is_audit_of "iamrole") (events r) = true
  /\ existsb is_close (events r) = true
  /\ existsb is_reconcile (events r) = false.
Proof.
  cbv zeta.
  rewrite (@unfetchable_batch_does_not_stop_find_changes nat Scenario.unfetchable
             4 "prod" "s3" true 0 Scenario.s3_monitor Scenario.s3_watcher
             _ _ _ _ _ _ eq_refl eq_refl eq_refl eq_refl).
  repeat split; reflexivity.
Defined.

(** ** Executions of the tasks that end well, or before the handler *)

Section TaskRuns.

Context {E : Type} (env : Env E).

(** An execution that does not send the task again is the last one. *)
Lemma worker_runs_once budget t args (execution : nat -> M E unit) k s r s1 ev1 :
  execution k s = (r, s1, ev1) ->
  existsb is_retry_sent ev1 = false ->
  worker (S budget) t args execution k s = (r, s1, TaskStart t args k :: ev1).
Proof.
  intros Hrun Hquiet. simpl. unfold bind, emit. rewrite Hrun. simpl.
  destruct r as [[]|e|]; rewrite ?Hquiet; reflexivity.
Qed.

(** An execution that sent the task again is followed by the next one. *)
Lemma worker_runs_again budget t args (execution : nat -> M E unit) k s r s1 ev1 :
  execution k s = (r, s1, ev1) ->
  r <> Diverge ->
  existsb is_retry_sent ev1 = true ->
  worker (S budget) t args execution k s =
    (let next := worker budget t args execution (S k) s1 in
     (result next, final next, (TaskStart t args k :: ev1) ++ events next)).
Proof.
  intros Hrun Hr Hsent. simpl. unfold bind, emit. rewrite Hrun. simpl.
  destruct r as [[]|e|]; try congruence; rewrite Hsent;
    destruct (worker budget t args execution (S k) s1) as [[r2 s2] ev2]; reflexivity.
Qed.

Lemma setup_sends_nothing :
  emits (fun ev => negb (is_retry_sent ev) && negb (is_task_start ev)) (setup env).
Proof. emits_module. Qed.

Lemma reporter_logic_sends_nothing fuel a t :
  emits (fun ev => negb (is_retry_sent ev) && negb (is_task_start ev))
    (reporter_logic env fuel a t).
Proof. emits_module. Qed.

Lemma audit_changes_sends_nothing accts names send_report debug skip_batch :
  emits (fun ev => negb (is_retry_sent ev) && negb (is_task_start ev))
    (audit_changes env accts names send_report debug skip_batch).
Proof. emits_module. Qed.

Lemma neither_left (p q : event -> bool) evs :
  forallb (fun ev => negb (p ev) && negb (q ev)) evs = true ->
  forallb (fun ev => negb (p ev)) evs = true.
Proof.
  induction evs as [|ev evs IH]; simpl; [reflexivity|].
  intros H. apply andb_true_iff in H. destruct H as [Hev Hevs].
  apply andb_true_iff in Hev. destruct Hev as [Hp _]. rewrite Hp. simpl. auto.
Qed.

Lemma neither_right (p q : event -> bool) evs :
  forallb (fun ev => negb (p ev) && negb (q ev)) evs = true ->
  forallb (fun ev => negb (q ev)) evs = true.
Proof.
  induction evs as [|ev evs IH]; simpl; [reflexivity|].
  intros H. apply andb_true_iff in H. destruct H as [Hev Hevs].
  apply andb_true_iff in Hev. destruct Hev as [_ Hq]. rewrite Hq. simpl. auto.
Qed.

(** Two stretches of a task body: no retry is sent, no execution starts. *)
Lemma body_is_quiet (m1 m2 : M E unit) s r1 s0 ev0 r2 s1 ev1 :
  emits (fun ev => negb (is_retry_sent ev) && negb (is_task_start ev)) m1 ->
  emits (fun ev => negb (is_retry_sent ev) && negb (is_task_start ev)) m2 ->
  m1 s = (r1, s0, ev0) ->
  m2 s0 = (r2, s1, ev1) ->
  existsb is_retry_sent (ev0 ++ ev1) = false /\ attempts (ev0 ++ ev1) = 0.
Proof.
  intros H1 H2 Hm1 Hm2. specialize (H1 s). specialize (H2 s0).
  rewrite Hm1 in H1. rewrite Hm2 in H2. unfold events in *. simpl in *.
  split.
  - apply none_of. rewrite forallb_app.
    rewrite (neither_left _ _ _ H1), (neither_left _ _ _ H2). reflexivity.
  - unfold attempts. rewrite none_filtered; [reflexivity|].
    rewrite forallb_app.
    rewrite (neither_right _ _ _ H1), (neither_right _ _ _ H2). reflexivity.
Qed.

(** X16.  An execution whose body returns is the only one: when
    [reporter_logic] (for [task_account_tech]) or the audit sweep (for
    [task_audit]) returns normally, the task returns normally, no retry is
    sent and the worker executes the task once. *)
Theorem successful_execution_is_not_repeated budget fuel a t s s0 ev0 :
  setup env s = (Ret tt, s0, ev0) ->
  (forall s1 ev1,
      reporter_logic env fuel a t s0 = (Ret tt, s1, ev1) ->
      let r := run_task_account_tech env (S budget) fuel a t s in
      task_account_tech env fuel 0 a t s = (Ret tt, s1, ev0 ++ ev1)
      /\ r = (Ret tt, s1, TaskStart TaskAccountTech [a; t] 0 :: ev0 ++ ev1)
      /\ attempts (events r) = 1)
  /\
  (forall s1 ev1,
      audit_changes env [a] [t] true default_debug default_skip_batch s0 = (Ret tt, s1, ev1) ->
      let r := run_task_audit env (S budget) a t s in
      task_audit env 0 a t s = (Ret tt, s1, ev0 ++ ev1)
      /\ r = (Ret tt, s1, TaskStart TaskAudit [a; t] 0 :: ev0 ++ ev1)
      /\ attempts (events r) = 1).
Proof.
  intros Hsetup. split.
  - intros s1 ev1 Hbody r.
    assert (Hrun : task_account_tech env fuel 0 a t s = (Ret tt, s1, ev0 ++ ev1)).
    { unfold task_account_tech. erewrite bind_Ret by exact Hsetup.
      erewrite try_except_Ret by exact Hbody. reflexivity. }
    destruct (@body_is_quiet _ _ _ _ _ _ _ _ _ setup_sends_nothing (reporter_logic_sends_nothing fuel a t)
                Hsetup Hbody) as [Hquiet Hnone].
    assert (Hr : r = (Ret tt, s1, TaskStart TaskAccountTech [a; t] 0 :: ev0 ++ ev1)).
    { unfold r, run_task_account_tech. apply worker_runs_once; assumption. }
    split; [exact Hrun|]. split; [exact Hr|]. rewrite Hr. unfold events. simpl.
    unfold attempts in *. simpl. rewrite Hnone. reflexivity.
  - intros s1 ev1 Hbody r.
    assert (Hrun : task_audit env 0 a t s = (Ret tt, s1, ev0 ++ ev1)).
    { unfold task_audit. erewrite bind_Ret by exact Hsetup.
      erewrite try_except_Ret by exact Hbody. reflexivity. }
    destruct (@body_is_quiet _ _ _ _ _ _ _ _ _ setup_sends_nothing
                (audit_changes_sends_nothing [a] [t] true default_debug default_skip_batch)
                Hsetup Hbody) as [Hquiet Hnone].
    assert (Hr : r = (Ret tt, s1, TaskStart TaskAudit [a; t] 0 :: ev0 ++ ev1)).
    { unfold r, run_task_audit. apply worker_runs_once; assumption. }
    split; [exact Hrun|]. split; [exact Hr|]. rewrite Hr. unfold events. simpl.
    unfold attempts in *. simpl. rewrite Hnone. reflexivity.
Qed.

(** X17.  [setup()] is called before the [try] of both tasks: an exception
    raised while the plugins are loaded leaves the task as it is, without an
    ExceptionRecord and without a retry, so the worker executes the task
    once. *)
Theorem task_setup_fault_is_neither_recorded_nor_retried budget fuel k a t s e s0 ev0 :
  setup env s = (Raise e, s0, ev0) ->
  task_account_tech env fuel k a t s = (Raise e, s0, ev0)
  /\ task_audit env k a t s = (Raise e, s0, ev0)
  /\ existsb is_store ev0 = false
  /\ run_task_account_tech env (S budget) fuel a t s =
       (Raise e, s0, TaskStart TaskAccountTech [a; t] 0 :: ev0)
  /\ run_task_audit env (S budget) a t s =
       (Raise e, s0, TaskStart TaskAudit [a; t] 0 :: ev0).
Proof.
  intros Hsetup.
  assert (Hwatch : forall k', task_account_tech env fuel k' a t s = (Raise e, s0, ev0)).
  { intros k'. unfold task_account_tech. erewrite bind_Raise by exact Hsetup. reflexivity. }
  assert (Haudit : forall k', task_audit env k' a t s = (Raise e, s0, ev0)).
  { intros k'. unfold task_audit. erewrite bind_Raise by exact Hsetup. reflexivity. }
  pose proof (setup_sends_nothing s) as Hquiet. rewrite Hsetup in Hquiet.
  unfold events in Hquiet. simpl in Hquiet.
  assert (Hstore : emits (fun ev => negb (is_store ev)) (setup env)) by emits_module.
  specialize (Hstore s). rewrite Hsetup in Hstore. unfold events in Hstore. simpl in Hstore.
  split; [apply Hwatch|]. split; [apply Haudit|]. split; [apply none_of; exact Hstore|].
  split.
  - unfold run_task_account_tech. apply worker_runs_once; [apply Hwatch|].
    apply none_of. exact (neither_left _ _ _ Hquiet).
  - unfold run_task_audit. apply worker_runs_once; [apply Haudit|].
    apply none_of. exact (neither_left _ _ _ Hquiet).
Qed.

(** X18.  [task_audit] calls [audit_changes] with [skip_batch] left at its
    default: the audit task runs the auditors, with reports, of those
    resolved monitors that are not batch-supporting, and of no other. *)
Theorem audit_task_passes_over_batch_monitors k a t s s0 ev0 deps s1 s2 ev2 :
  setup env s = (Ret tt, s0, ev0) ->
  oracle env (GetMonitorsAndDependencies a [t] true) s0 = (Ret deps, s1) ->
  for_each (filter (fun m => negb (batch_support m)) deps)
    (audit_monitor env a true true true) s1 = (Ret tt, s2, ev2) ->
  task_audit env k a t s =
    (Ret tt, s2, ev0 ++ Called (GetMonitorsAndDependencies a [t] true) :: ev2).
Proof.
  intros Hsetup Hdeps Hsweep. unfold task_audit.
  erewrite bind_Ret by exact Hsetup.
  erewrite try_except_Ret; [reflexivity|].
  unfold default_debug, default_skip_batch.
  rewrite (@audit_changes_one_account _ env a [t] true true true s0 deps s1 Hdeps).
  cbv zeta. rewrite sweep_skips_batch, Hsweep. reflexivity.
Qed.

(** X19.  A failed execution followed by one whose body returns: the worker
    executes [task_account_tech] twice, at [request.retries] 0 and 1; the
    first execution is recorded with source ["scheduler-exception-on-watch"]
    and sends the task again, the second ends the task. *)
Theorem retry_ends_at_first_success budget fuel a t s s0 ev0 e s1 ev1 s2 ev2 s3 ev3 :
  setup env s = (Ret tt, s0, ev0) ->
  reporter_logic env fuel a t s0 = (Raise e, s1, ev1) ->
  setup env s1 = (Ret tt, s2, ev2) ->
  reporter_logic env fuel a t s2 = (Ret tt, s3, ev3) ->
  let r := run_task_account_tech env (S (S budget)) fuel a t s in
  r = (Ret tt, s3,
       (TaskStart TaskAccountTech [a; t] 0
        :: ev0 ++ ev1 ++
           task_fault_recorded env msg_watch_exception "scheduler-exception-on-watch" a t e ++
           [RetrySent TaskAccountTech [a; t] 1])
       ++ TaskStart TaskAccountTech [a; t] 1 :: ev2 ++ ev3)
  /\ attempts (events r) = 2.
Proof.
  intros Hsetup Hfail Hsetup2 Hok r.
  pose proof (@task_account_tech_fault _ env fuel 0 a t s s0 ev0 e s1 ev1 Hsetup Hfail)
    as Hfirst.
  change (retry_sends TaskAccountTech [a; t] 0)
    with [RetrySent TaskAccountTech [a; t] 1] in Hfirst.
  change (retry_raises 0 e) with (Retry e) in Hfirst.
  assert (Hsecond : task_account_tech env fuel 1 a t s1 = (Ret tt, s3, ev2 ++ ev3)).
  { unfold task_account_tech. erewrite bind_Ret by exact Hsetup2.
    erewrite try_except_Ret by exact Hok. reflexivity. }
  destruct (@body_is_quiet _ _ _ _ _ _ _ _ _ setup_sends_nothing (reporter_logic_sends_nothing fuel a t)
              Hsetup Hfail) as [_ Hnone1].
  destruct (@body_is_quiet _ _ _ _ _ _ _ _ _ setup_sends_nothing (reporter_logic_sends_nothing fuel a t)
              Hsetup2 Hok) as [Hquiet2 Hnone2].
  assert (Hr : r = (Ret tt, s3,
       (TaskStart TaskAccountTech [a; t] 0
        :: ev0 ++ ev1 ++
           task_fault_recorded env msg_watch_exception "scheduler-exception-on-watch" a t e ++
           [RetrySent TaskAccountTech [a; t] 1])
       ++ TaskStart TaskAccountTech [a; t] 1 :: ev2 ++ ev3)).
  { unfold r, run_task_account_tech.
    erewrite worker_runs_again; [| exact Hfirst | discriminate |].
    - erewrite worker_runs_once; [reflexivity | exact Hsecond | exact Hquiet2].
    - rewrite !existsb_app. simpl. rewrite !orb_true_r. reflexivity. }
  split; [exact Hr|]. rewrite Hr. unfold events. simpl.
  unfold attempts in *. simpl. rewrite !filter_app. simpl.
  rewrite !filter_app in Hnone1, Hnone2. rewrite !length_app in *. simpl.
  assert (Hrec : filter is_task_start
            (task_fault_recorded env msg_watch_exception "scheduler-exception-on-watch" a t e)
            = []).
  { unfold task_fault_recorded, captured. destruct (sentry env); reflexivity. }
  rewrite Hrec. simpl. rewrite !filter_app, !length_app. lia.
Qed.

End TaskRuns.

(** The healthy deployment: one execution of either task for the roles. *)
Lemma successful_execution_is_not_repeated_witness :
  attempts (events (run_task_account_tech Scenario.healthy 1 4 "prod" "iamrole" 0)) = 1
  /\ attempts (events (run_task_audit Scenario.healthy 1 "prod" "iamrole" 0)) = 1.
Proof.
  pose proof (@successful_execution_is_not_repeated nat Scenario.healthy 0 4
                "prod" "iamrole" 0 _ _ eq_refl) as [Hwatch Haudit].
  split.
  - exact (proj2 (proj2 (Hwatch _ _ eq_refl))).
  - exact (proj2 (proj2 (Haudit _ _ eq_refl))).
Defined.

(** A plugin fails to import: one execution, nothing stored. *)
Lemma task_setup_fault_is_neither_recorded_nor_retried_witness :
  let r := run_task_account_tech (Scenario.env Scenario.plugin_broken []) 10 4
             "prod" "iamrole" 0 in
  result r = Raise (OtherError "ImportError")
  /\ attempts (events r) = 1
  /\ existsb is_store (events r) = false.
Proof.
  cbv zeta.
  rewrite (proj1 (proj2 (proj2 (proj2
    (@task_setup_fault_is_neither_recorded_nor_retried nat
       (Scenario.env Scenario.plugin_broken []) 9 4 0 "prod" "iamrole" 0 _ _ _ eq_refl))))).
  repeat split; reflexivity.
Defined.

(** The audit task for the buckets in the healthy deployment: the bucket
    auditors are passed over, the roles that depend on the buckets are
    audited and their report is mailed. *)
Lemma audit_task_passes_over_batch_monitors_witness :
  let r := task_audit Scenario.healthy 0 "prod" "s3" 0 in
  result r = Ret tt
  /\ existsb (is_audit_of "s3") (events r) = false
  /\ existsb (is_audit_of "iamrole") (events r) = true
  /\ existsb is_report (events r) = true.
Proof.
  cbv zeta.
  rewrite (@audit_task_passes_over_batch_monitors nat Scenario.healthy 0 "prod" "s3"
             0 _ _ _ _ _ _ eq_refl eq_refl eq_refl).
  repeat split; reflexivity.
Defined.

(** The snapshot fetch is throttled once: two executions, one record. *)
Lemma retry_ends_at_first_success_witness :
  let r := run_task_account_tech Scenario.throttled_once 10 4 "prod" "iamrole" 0 in
  result r = Ret tt
  /\ attempts (events r) = 2
  /\ filter is_store (events r) =
       [StoreException "scheduler-exception-on-watch" (OtherError "Throttled")].
Proof.
  cbv zeta.
  destruct (@retry_ends_at_first_success nat Scenario.throttled_once 8 4 "prod" "iamrole"
              0 _ _ _ _ _ _ _ _ _ eq_refl eq_refl eq_refl eq_refl) as [Hrun Hattempts].
  split; [rewrite Hrun; reflexivity|]. split; [exact Hattempts|].
  rewrite Hrun. reflexivity.
Defined.

(** ** The manual entry points *)

Section ManualRuns.

Context {E : Type} (env : Env E).

(** A storage fault of the watch, audit and alert, as [reporter_logic]
    leaves it. *)
Lemma reporter_logic_storage_fault fuel a t s e s1 ev1 :
  watch_audit_alert env fuel a t s = (Raise e, s1, ev1) ->
  is_db_error e = true ->
  reporter_logic env fuel a t s = (Raise e, s1, ev1 ++ watch_fault_handled a t e).
Proof.
  intros Hbody Hdb. unfold reporter_logic, try_except_db.
  erewrite try_except_Raise by exact Hbody. rewrite Hdb. reflexivity.
Qed.

(** Monitors without watcher are passed over by [manual_run_change_reporter]. *)
Lemma unwatched_monitors_passed_over fuel a pre : forall s,
  forallb (fun m => negb (watched m)) pre = true ->
  for_each pre (report_monitor env fuel a) s = (Ret tt, s, []).
Proof.
  induction pre as [|m pre IH]; intros s H; [reflexivity|].
  cbn [forallb] in H. apply andb_true_iff in H. destruct H as [Hm Hpre].
  change (for_each (m :: pre) ?f s) with ((f m ;; for_each pre f) s).
  assert (Hskip : report_monitor env fuel a m s = (Ret tt, s, [])).
  { unfold report_monitor. unfold watched in Hm. destruct (watcher m); [discriminate|].
    reflexivity. }
  erewrite bind_Ret by exact Hskip. rewrite (IH s Hpre). reflexivity.
Qed.

(** The [try] of the two manual entry points: the handler runs for storage
    faults only, and raises the fault again. *)
Lemma manual_guard_run (m : M E unit) s :
  try_except_db m
    (fun e =>
       emit (LogError msg_manual_database_error []) ;;
       emit SessionRemove ;;
       emit (StoreException "scheduler-run-change-reporter" e) ;;
       raise e) s =
  match m s with
  | (Raise e, s1, ev1) =>
      (Raise e, s1, ev1 ++ (if is_db_error e then manual_fault_handled e else []))
  | other => other
  end.
Proof.
  unfold try_except_db, try_except.
  destruct (m s) as [[[[]|e|] s1] ev1]; try reflexivity.
  destruct (is_db_error e); reflexivity.
Qed.

(** An entry point that returned has come through its loop. *)
Lemma manual_guard_returned (m : M E unit) s s1 ev1 :
  try_except_db m
    (fun e =>
       emit (LogError msg_manual_database_error []) ;;
       emit SessionRemove ;;
       emit (StoreException "scheduler-run-change-reporter" e) ;;
       raise e) s = (Ret tt, s1, ev1) ->
  m s = (Ret tt, s1, ev1).
Proof.
  rewrite manual_guard_run.
  destruct (m s) as [[[[]|e|] s2] ev2]; intros H; try discriminate. exact H.
Qed.

(** X20.  In [manual_run_change_reporter], a storage fault in the watch,
    audit or alert of a monitor, whichever account and monitor the pass has
    reached, is handled twice: [reporter_logic] removes the session and
    stores it with source ["scheduler-task-account-tech"], then the entry
    point removes the session again and stores it with source
    ["scheduler-run-change-reporter"], and raises it.  The monitors and the
    accounts after it are not run; monitors without watcher are passed
    over. *)
Theorem manual_reporter_handles_storage_fault_twice
    fuel before a others s sa eva pre m post s0 sp evp w e s1 ev1 :
  manual_run_change_reporter env fuel before s = (Ret tt, sa, eva) ->
  oracle env (ReporterAllMonitors a) sa = (Ret (pre ++ m :: post), s0) ->
  for_each pre (report_monitor env fuel a) s0 = (Ret tt, sp, evp) ->
  watcher m = Some w ->
  watch_audit_alert env fuel a (index w) sp = (Raise e, s1, ev1) ->
  is_db_error e = true ->
  let handled := watch_fault_handled a (index w) e ++ manual_fault_handled e in
  manual_run_change_reporter env fuel (before ++ a :: others) s =
    (Raise e, s1, eva ++ Called (ReporterAllMonitors a) :: evp ++ ev1 ++ handled)
  /\ filter is_store handled =
       [StoreException "scheduler-task-account-tech" e;
        StoreException "scheduler-run-change-reporter" e]
  /\ filter is_release handled = [SessionRemove; SessionRemove]
  /\ (forall unwatched s',
        forallb (fun m' => negb (watched m')) unwatched = true ->
        for_each unwatched (report_monitor env fuel a) s' = (Ret tt, s', [])).
Proof.
  intros Hbefore Hms Hpre Hw Hbody Hdb handled.
  split; [| split; [reflexivity | split; [reflexivity |]]].
  - assert (Hmon : for_each (pre ++ m :: post) (report_monitor env fuel a) s0 =
                   (Raise e, s1, evp ++ ev1 ++ watch_fault_handled a (index w) e)).
    { eapply for_each_stops_at_fault; [exact Hpre|].
      unfold report_monitor. rewrite Hw. apply reporter_logic_storage_fault; assumption. }
    unfold manual_run_change_reporter in *.
    apply manual_guard_returned in Hbefore.
    rewrite manual_guard_run.
    rewrite (@for_each_stops_at_fault _ _ _ before a others s sa eva e s1
               (Called (ReporterAllMonitors a)
                :: evp ++ ev1 ++ watch_fault_handled a (index w) e) Hbefore).
    + rewrite Hdb. unfold handled.
      repeat (rewrite <- app_assoc || rewrite <- app_comm_cons). reflexivity.
    + erewrite bind_Ret by (exact (@do_call_Ret _ env _ _ _ _ Hms)).
      rewrite Hmon. reflexivity.
  - intros unwatched s' H. apply unwatched_monitors_passed_over. exact H.
Qed.

(** X21.  [manual_run_change_finder] ends at the first exception of
    [find_changes], whichever account and technology the pass has reached: a
    storage fault is handled once, by removing the session and storing it
    with source ["scheduler-run-change-reporter"], any other exception is not
    handled at all; either is raised to the caller, and the technologies and
    accounts after it are not run. *)
Theorem manual_finder_ends_at_first_fault
    fuel before a others done t techs s sa eva sb evb e s1 ev1 :
  manual_run_change_finder env fuel before (done ++ t :: techs) s = (Ret tt, sa, eva) ->
  manual_run_change_finder env fuel [a] done sa = (Ret tt, sb, evb) ->
  find_changes env fuel a t default_debug sb = (Raise e, s1, ev1) ->
  manual_run_change_finder env fuel (before ++ a :: others) (done ++ t :: techs) s =
    (Raise e, s1,
     eva ++ evb ++ ev1 ++ (if is_db_error e then manual_fault_handled e else []))
  /\ filter is_store (if is_db_error e then manual_fault_handled e else []) =
       (if is_db_error e then [StoreException "scheduler-run-change-reporter" e] else []).
Proof.
  intros Hbefore Hdone Hfc. split; [|destruct (is_db_error e); reflexivity].
  unfold manual_run_change_finder in *.
  apply manual_guard_returned in Hbefore. apply manual_guard_returned in Hdone.
  assert (Hdone' :
    for_each done
      (fun tech => _ <- find_changes env fuel a tech default_debug ;; pure tt) sa =
    (Ret tt, sb, evb)).
  { revert Hdone.
    change (for_each [a] ?f sa) with ((f a ;; for_each [] f) sa). cbv beta.
    unfold bind at 1.
    destruct (for_each done _ sa) as [[[[]|e'|] sx] evx]; intros H; try discriminate.
    cbn in H. rewrite app_nil_r in H. exact H. }
  rewrite manual_guard_run.
  rewrite (@for_each_stops_at_fault _ _ _ before a others s sa eva e s1 (evb ++ ev1)
             Hbefore).
  - rewrite <- !app_assoc. reflexivity.
  - apply (@for_each_stops_at_fault _ _ _ done t techs sa sb evb e s1 ev1 Hdone').
    apply bind_Raise. exact Hfc.
Qed.

(** X22.  [manual_run_change_finder] never asks the alerter to report; and
    called without technologies it does nothing at all, whatever the
    accounts: no collaborator is called and the session is not touched. *)
Theorem manual_finder_is_watch_and_audit_only fuel accts :
  (forall technologies,
      emits (fun ev => negb (is_alert ev))
        (manual_run_change_finder env fuel accts technologies))
  /\ (forall s, manual_run_change_finder env fuel accts [] s = (Ret tt, s, [])).
Proof.
  split.
  - intros technologies. emits_entry fail.
  - intros s. unfold manual_run_change_finder, try_except_db.
    apply try_except_Ret. revert s.
    induction accts as [|a accts' IH]; intros s; [reflexivity|].
    change (for_each (a :: accts') ?f s) with ((f a ;; for_each accts' f) s).
    erewrite bind_Ret by reflexivity. rewrite IH. reflexivity.
Qed.

(** X23.  When the first fetch of [batch_logic] returns a non-empty exception
    map, the region named in the one log line of the aborted invocation is
    the third component of the first key of the map, and ["unknown"] when
    that key has fewer than three components. *)
Theorem aborted_batch_names_region_of_first_scope
    fuel monitor cw account debug s items loc e rest s1 :
  oracle env (SlurpList cw) s = (Ret (items, (loc, e) :: rest), s1) ->
  let logs region :=
    events (batch_logic env fuel monitor cw account debug s) =
      [Called (SlurpList cw);
       LogError msg_nothing_fetched [i_am_plural cw; account; region]] in
  logs (List.nth 2 loc "unknown")
  /\ (List.length loc <= 2 -> logs "unknown")
  /\ (forall a t r more, loc = a :: t :: r :: more -> logs r).
Proof.
  intros Hfirst logs.
  assert (Hrun : events (batch_logic env fuel monitor cw account debug s) =
                 [Called (SlurpList cw);
                  LogError msg_nothing_fetched [i_am_plural cw; account; region_of loc]]).
  { rewrite batch_logic_run, Hfirst. reflexivity. }
  unfold logs. rewrite Hrun. split; [|split].
  - destruct loc as [|a [|t [|r more]]]; reflexivity.
  - intros H. destruct loc as [|a [|t [|r more]]]; try reflexivity. simpl in H. lia.
  - intros a t r more H. subst. reflexivity.
Qed.

End ManualRuns.

(** A dropped connection during change detection of the buckets, run by hand
    for ["prod"] and ["vendor"]: the roles of ["prod"] were reported and the
    monitor without watcher passed over; the fault leaves two records, and
    ["vendor"] is not run. *)
Lemma manual_reporter_handles_storage_fault_twice_witness :
  let r := manual_run_change_reporter (Scenario.env Scenario.storage_down_on_buckets [])
             4 ["prod"; "vendor"] 0 in
  result r = Raise OperationalError
  /\ filter is_store (events r) =
       [StoreException "scheduler-task-account-tech" OperationalError;
        StoreException "scheduler-run-change-reporter" OperationalError]
  /\ List.length (filter is_alert (events r)) = 1
  /\ existsb is_reconcile (events r) = false.
Proof.
  cbv zeta.
  pose proof (proj1 (@manual_reporter_handles_storage_fault_twice nat
             (Scenario.env Scenario.storage_down_on_buckets []) 4 [] "prod" ["vendor"] 0
             _ _ [Scenario.iamrole_monitor; Scenario.bare_monitor] Scenario.s3_monitor []
             _ _ _ Scenario.s3_watcher OperationalError _ _
             eq_refl eq_refl eq_refl eq_refl eq_refl eq_refl)) as Hrun.
  change ([] ++ ["prod"; "vendor"]) with ["prod"; "vendor"] in Hrun. rewrite Hrun.
  repeat split; reflexivity.
Defined.

(** The same fault in the manual change finder, asked for the roles and then
    the buckets: the roles were watched, the fault on the buckets leaves one
    record, and ["vendor"] is not run. *)
Lemma manual_finder_ends_at_first_fault_witness :
  let r := manual_run_change_finder (Scenario.env Scenario.storage_down_on_buckets [])
             4 ["prod"; "vendor"] ["iamrole"; "s3"] 0 in
  result r = Raise OperationalError
  /\ filter is_store (events r) =
       [StoreException "scheduler-run-change-reporter" OperationalError]
  /\ List.length (filter is_close (events r)) = 1.
Proof.
  cbv zeta.
  pose proof (proj1 (@manual_finder_ends_at_first_fault nat
               (Scenario.env Scenario.storage_down_on_buckets []) 4 [] "prod" ["vendor"]
               ["iamrole"] "s3" [] 0 _ _ _ _ OperationalError _ _
               eq_refl eq_refl eq_refl)) as Hrun.
  change ([] ++ ["prod"; "vendor"]) with ["prod"; "vendor"] in Hrun.
  change (["iamrole"] ++ ["s3"]) with ["iamrole"; "s3"] in Hrun. rewrite Hrun.
  repeat split; reflexivity.
Defined.

(** Failing scopes of three and of two components. *)
Lemma aborted_batch_names_region_of_first_scope_witness :
  events (batch_logic Scenario.unfetchable 4 Scenario.s3_monitor Scenario.s3_watcher
            "prod" true 0) =
    [Called (SlurpList Scenario.s3_watcher);
     LogError msg_nothing_fetched ["s3"; "prod"; "us-east-1"]]
  /\ events (batch_logic
               (Scenario.env Scenario.no_fault [(["prod"; "s3"], OtherError "ClientError")])
               4 Scenario.s3_monitor Scenario.s3_watcher "prod" true 0) =
       [Called (SlurpList Scenario.s3_watcher);
        LogError msg_nothing_fetched ["s3"; "prod"; "unknown"]].
Proof.
  split.
  - exact (proj2 (proj2 (@aborted_batch_names_region_of_first_scope nat
             Scenario.unfetchable 4 Scenario.s3_monitor Scenario.s3_watcher "prod" true 0
             _ _ _ _ _ eq_refl)) "prod" "s3" "us-east-1" [] eq_refl).
  - apply (proj1 (proj2 (@aborted_batch_names_region_of_first_scope nat
             (Scenario.env Scenario.no_fault [(["prod"; "s3"], OtherError "ClientError")])
             4 Scenario.s3_monitor Scenario.s3_watcher "prod" true 0
             _ _ _ _ _ eq_refl))).
    simpl. lia.
Defined.

(** ** What is stored, and under which source *)

Section Records.

Context {E : Type} (env : Env E).

(** Enter a handler for storage faults knowing that the fault is one, and
    store under the handler's source. *)
Ltac storage_handler :=
  first
    [ lazymatch goal with
      | |- emits _ (if is_db_error ?e then _ else _) => destruct (is_db_error e) eqn:?
      end
    | lazymatch goal with
      | |- emits _ (emit (StoreException _ _)) => apply emits_emit; simpl; assumption
      end ].

(** X24.  Each entry point stores ExceptionRecords under its own sources only:
    [task_account_tech] under ["scheduler-audit-changes"],
    ["scheduler-task-account-tech"] and ["scheduler-exception-on-watch"],
    [task_audit] under ["scheduler-audit-changes"] and
    ["scheduler-exception-on-audit"], the bootstrapper under ["scheduler"],
    the manual entry points under the storage sources; and a record under
    one of the three storage sources always holds an [OperationalError],
    [InvalidRequestError] or [StatementError]. *)
Theorem records_are_stored_under_known_sources fuel k a t accts technologies :
  emits (well_tagged ["scheduler-audit-changes"; "scheduler-task-account-tech";
                      "scheduler-exception-on-watch"])
    (task_account_tech env fuel k a t)
  /\ emits (well_tagged ["scheduler-audit-changes"; "scheduler-exception-on-audit"])
       (task_audit env k a t)
  /\ emits (well_tagged ["scheduler"]) (setup_the_tasks env)
  /\ emits (well_tagged storage_sources) (manual_run_change_reporter env fuel accts)
  /\ emits (well_tagged ["scheduler-audit-changes"; "scheduler-run-change-reporter"])
       (manual_run_change_finder env fuel accts technologies).
Proof.
  repeat split; emits_entry storage_handler.
Qed.

End Records.
